(** * Fyers OAuth token retrieval: the state check and the code exchange

    A shallow embedding of [fyers_oauth.py]: the pending-state table
    ([states], [generate_state]), the callback handler ([callback]) with its
    state validation, checksum, token request, token file and rendered pages,
    and the library routines the handler leans on (UUID text, URL-safe
    base64, UTF-8, SHA-256); further the configuration read at start-up,
    [login], and the two token pages [list_tokens] and [view_token]. *)

From Stdlib Require Import NArith ZArith String Ascii List DecimalString SpecFloat.
From stdpp Require Import gmap strings list sorting.

Local Open Scope N_scope.

(** ** Text

    A Python [str] that only travels through the handler is kept as a Rocq
    [string] (the bytes of its UTF-8 form); the two configuration strings,
    which the handler encodes itself, are kept as code points ([pystr]). *)

(** The double-quote character, for the HTML attributes of the templates. *)
Definition dq : string := String (ascii_of_N 34) EmptyString.

(** [bool(s)] for a [str]: the empty string is false. *)
Definition truthy (s : string) : bool :=
  match s with EmptyString => false | String _ _ => true end.

(** [bool(x)] for a query parameter declared [Query(None)]. *)
Definition truthy_opt (o : option string) : bool :=
  match o with None => false | Some s => truthy s end.

(** [str(x)] / ["%s" % x] for a query parameter that may be [None]. *)
Definition str_opt (o : option string) : string :=
  match o with None => "None" | Some s => s end.

(** [str(n)] for an [int]. *)
Definition str_int (z : Z) : string := NilZero.string_of_int (Z.to_int z).

(** [s.split(":", 1)]: one element when [s] has no colon, else the text
    before the first colon and everything after it. *)
Fixpoint split_colon_1 (s : string) : list string :=
  match s with
  | EmptyString => [EmptyString]
  | String c s' =>
      if Ascii.eqb c ":" then [EmptyString; s']
      else match split_colon_1 s' with
           | a :: rest => String c a :: rest
           | [] => [String c EmptyString]
           end
  end.

(** [k] lower-case hexadecimal digits of [n], most significant first
    (["%0kx" % n] for [n < 16^k]). *)
Definition hex_alphabet : list ascii := list_ascii_of_string "0123456789abcdef".

Definition hex_char (d : N) : ascii := nth (N.to_nat d) hex_alphabet "0"%char.

Fixpoint hex_digits (k : nat) (n : N) : string :=
  match k with
  | O => EmptyString
  | S k' => hex_digits k' (N.shiftr n 4) +:+ String (hex_char (N.land n 15)) EmptyString
  end.

(** ** [uuid.uuid4] and [str(UUID)] *)

(** [UUID(bytes=os.urandom(16), version=4)]: the 128 random bits with the
    RFC 4122 variant and the version nibble forced. *)
Definition uuid4 (rnd : N) : N :=
  let i := N.land rnd (N.ones 128) in
  let i := N.ldiff i (N.shiftl 0xc000 48) in
  let i := N.lor i (N.shiftl 0x8000 48) in
  let i := N.ldiff i (N.shiftl 0xf000 64) in
  N.lor i (N.shiftl 4 76).

(** [str(u)]: the 32 hex digits cut 8-4-4-4-12. *)
Definition uuid_str (u : N) : string :=
  let hex := hex_digits 32 u in
  substring 0 8 hex +:+ "-" +:+ substring 8 4 hex +:+ "-" +:+
  substring 12 4 hex +:+ "-" +:+ substring 16 4 hex +:+ "-" +:+
  substring 20 12 hex.

(** ** [secrets.token_urlsafe] *)

Definition b64url_alphabet : list ascii :=
  list_ascii_of_string
    "ABCDEFGHIJKLMNOPQRSTUVWXYZabcdefghijklmnopqrstuvwxyz0123456789-_".

Definition b64_char (d : N) : ascii := nth (N.to_nat d) b64url_alphabet "A"%char.

(** [base64.urlsafe_b64encode]: three bytes to four characters, the tail
    padded with [=]. *)
Fixpoint urlsafe_b64encode (bs : list N) : string :=
  match bs with
  | [] => EmptyString
  | [a] =>
      String (b64_char (N.shiftr a 2))
        (String (b64_char (N.shiftl (N.land a 3) 4)) "==")
  | [a; b] =>
      String (b64_char (N.shiftr a 2))
        (String (b64_char (N.lor (N.shiftl (N.land a 3) 4) (N.shiftr b 4)))
           (String (b64_char (N.shiftl (N.land b 15) 2)) "="))
  | a :: b :: c :: rest =>
      String (b64_char (N.shiftr a 2))
        (String (b64_char (N.lor (N.shiftl (N.land a 3) 4) (N.shiftr b 4)))
           (String (b64_char (N.lor (N.shiftl (N.land b 15) 2) (N.shiftr c 6)))
              (String (b64_char (N.land c 63)) (urlsafe_b64encode rest))))
  end.

(** [s.rstrip("=")]. *)
Fixpoint rstrip_eq (s : string) : string :=
  match s with
  | EmptyString => EmptyString
  | String c s' =>
      match rstrip_eq s' with
      | EmptyString => if Ascii.eqb c "=" then EmptyString else String c EmptyString
      | r => String c r
      end
  end.

(** [token_urlsafe(nbytes)] on the bytes drawn by [token_bytes(nbytes)]. *)
Definition token_urlsafe (tok : list N) : string :=
  rstrip_eq (urlsafe_b64encode tok).

(** ** [str.encode("utf-8")] *)

(** A Python [str] as its code points. *)
Definition pystr := list N.

(** The code points of an ASCII literal. *)
Definition pystr_of_string (s : string) : pystr :=
  map N_of_ascii (list_ascii_of_string s).

(** The code points that have no UTF-8 form. *)
Definition is_surrogate (c : N) : bool := (0xD800 <=? c) && (c <=? 0xDFFF).

(** One code point that is no surrogate (a [str] holds none above 0x10FFFF). *)
Definition utf8_encode_char (c : N) : list N :=
  if c <? 0x80 then [c]
  else if c <? 0x800 then
    [N.lor 0xC0 (N.shiftr c 6); N.lor 0x80 (N.land c 0x3F)]
  else if c <? 0x10000 then
    [N.lor 0xE0 (N.shiftr c 12);
     N.lor 0x80 (N.land (N.shiftr c 6) 0x3F);
     N.lor 0x80 (N.land c 0x3F)]
  else
    [N.lor 0xF0 (N.shiftr c 18);
     N.lor 0x80 (N.land (N.shiftr c 12) 0x3F);
     N.lor 0x80 (N.land (N.shiftr c 6) 0x3F);
     N.lor 0x80 (N.land c 0x3F)].

(** The surrogates that open [s]. *)
Fixpoint surrogate_run (s : pystr) : nat :=
  match s with
  | c :: s' => if is_surrogate c then S (surrogate_run s') else O
  | [] => O
  end.

(** What the handler can see raised. Only [str(e)] is ever observed; the
    exceptions of [httpx], [json] and [open] keep the text the library
    gave them. *)
Inductive exn :=
| ValueError (msg : string)
| AttributeError (msg : string)
| UnicodeEncodeError (c : N) (first last : nat)
| LibraryError (msg : string).

Definition str_nat (n : nat) : string := NilZero.string_of_uint (Nat.to_uint n).

Definition str_exn (e : exn) : string :=
  match e with
  | ValueError msg | AttributeError msg | LibraryError msg => msg
  | UnicodeEncodeError c first last =>
      if Nat.eqb first last then
        "'utf-8' codec can't encode character '\u" +:+ hex_digits 4 c +:+
        "' in position " +:+ str_nat first +:+ ": surrogates not allowed"
      else
        "'utf-8' codec can't encode characters in position " +:+ str_nat first +:+
        "-" +:+ str_nat last +:+ ": surrogates not allowed"
  end.

(** [s.encode("utf-8")], [s] starting at index [pos] of the whole text: the
    bytes, or the error at the first run of surrogates. *)
Fixpoint utf8_encode_from (pos : nat) (s : pystr) : exn + list N :=
  match s with
  | [] => inr []
  | c :: s' =>
      if is_surrogate c then
        inl (UnicodeEncodeError c pos (pos + surrogate_run s'))
      else
        match utf8_encode_from (S pos) s' with
        | inr rest => inr (utf8_encode_char c ++ rest)
        | inl e => inl e
        end
  end.

Definition utf8_encode (s : pystr) : exn + list N := utf8_encode_from 0 s.

(** ** [hashlib.sha256] (FIPS 180-4) on 32-bit words held in [N] *)

Definition mask32 : N := 0xFFFFFFFF.

(** Addition modulo 2^32. *)
Definition add32 (x y : N) : N := N.land (x + y) mask32.

Definition rotr32 (n x : N) : N :=
  N.lor (N.shiftr x n) (N.land (N.shiftl x (32 - n)) mask32).

Definition sha_ch (x y z : N) : N :=
  N.lxor (N.land x y) (N.land (N.lxor x mask32) z).

Definition sha_maj (x y z : N) : N :=
  N.lxor (N.lxor (N.land x y) (N.land x z)) (N.land y z).

Definition big_sigma0 (x : N) : N :=
  N.lxor (N.lxor (rotr32 2 x) (rotr32 13 x)) (rotr32 22 x).

Definition big_sigma1 (x : N) : N :=
  N.lxor (N.lxor (rotr32 6 x) (rotr32 11 x)) (rotr32 25 x).

Definition small_sigma0 (x : N) : N :=
  N.lxor (N.lxor (rotr32 7 x) (rotr32 18 x)) (N.shiftr x 3).

Definition small_sigma1 (x : N) : N :=
  N.lxor (N.lxor (rotr32 17 x) (rotr32 19 x)) (N.shiftr x 10).

(** The constants are cut from roots of the first primes (FIPS 180-4,
    sections 4.2.2 and 5.3.3). *)
Definition is_prime (n : N) : bool :=
  (2 <=? n) && forallb (fun d => negb (n mod d =? 0)) (map N.of_nat (seq 2 (N.to_nat n - 2))).

Definition sha_primes : list N :=
  Eval vm_compute in filter (fun n => is_prime n) (map N.of_nat (seq 2 310)).

(** The integer cube root of [n < 2^108], one bit at a time. *)
Definition cube_root (n : N) : N :=
  fold_left (fun r b => let r' := r + N.shiftl 1 b in if r' * r' * r' <=? n then r' else r)
            (map N.of_nat (rev (seq 0 36))) 0.

(** The first 32 bits of the fractional part of the cube root of [p]. *)
Definition cube_root_frac (p : N) : N :=
  N.land (cube_root (N.shiftl p 96)) mask32.

(** The first 32 bits of the fractional part of the square root of [p]. *)
Definition square_root_frac (p : N) : N :=
  N.land (N.sqrt (N.shiftl p 64)) mask32.

Definition sha_K : list N :=
  Eval vm_compute in map cube_root_frac sha_primes.

(** The eight working words. *)
Record sha_state := ShaState {
  sa : N; sb : N; sc : N; sd : N; se : N; sf : N; sg : N; sh : N
}.

Definition sha_H0 : sha_state :=
  Eval vm_compute in
    match map square_root_frac (take 8 sha_primes) with
    | [a; b; c; d; e; f; g; h] => ShaState a b c d e f g h
    | _ => ShaState 0 0 0 0 0 0 0 0
    end.

(** [k] bytes of [n], most significant first. *)
Fixpoint be_bytes (k : nat) (n : N) : list N :=
  match k with
  | O => []
  | S k' => be_bytes k' (N.shiftr n 8) ++ [N.land n 0xFF]
  end.

(** The message, the bit 1, zeros up to 56 modulo 64, the bit length on
    eight bytes. *)
Definition sha_pad (msg : list N) : list N :=
  let len := N.of_nat (length msg) in
  let zeros := N.to_nat ((119 - len mod 64) mod 64) in
  msg ++ [0x80] ++ repeat 0 zeros ++ be_bytes 8 (8 * len).

(** Four bytes to one big-endian word. *)
Fixpoint be_words (bs : list N) : list N :=
  match bs with
  | a :: b :: c :: d :: rest =>
      N.lor (N.lor (N.shiftl a 24) (N.shiftl b 16)) (N.lor (N.shiftl c 8) d)
      :: be_words rest
  | _ => []
  end.

(** The words cut into blocks of sixteen. *)
Fixpoint sha_blocks (fuel : nat) (ws : list N) : list (list N) :=
  match fuel, ws with
  | S fuel', _ :: _ => take 16 ws :: sha_blocks fuel' (drop 16 ws)
  | _, _ => []
  end.

(** The message schedule: sixteen block words extended to sixty-four. *)
Fixpoint sha_schedule (n : nat) (w : list N) : list N :=
  match n with
  | O => w
  | S n' =>
      let t := length w in
      let x := add32 (add32 (small_sigma1 (nth (t - 2) w 0)) (nth (t - 7) w 0))
                     (add32 (small_sigma0 (nth (t - 15) w 0)) (nth (t - 16) w 0)) in
      sha_schedule n' (w ++ [x])
  end.

Definition sha_round (s : sha_state) (kw : N * N) : sha_state :=
  let t1 := add32 (add32 (add32 (sh s) (big_sigma1 (se s)))
                         (add32 (sha_ch (se s) (sf s) (sg s)) (fst kw))) (snd kw) in
  let t2 := add32 (big_sigma0 (sa s)) (sha_maj (sa s) (sb s) (sc s)) in
  ShaState (add32 t1 t2) (sa s) (sb s) (sc s) (add32 (sd s) t1) (se s) (sf s) (sg s).

Definition sha_compress (h : sha_state) (block : list N) : sha_state :=
  let w := sha_schedule 48 block in
  let s := fold_left sha_round (combine sha_K w) h in
  ShaState (add32 (sa h) (sa s)) (add32 (sb h) (sb s)) (add32 (sc h) (sc s))
           (add32 (sd h) (sd s)) (add32 (se h) (se s)) (add32 (sf h) (sf s))
           (add32 (sg h) (sg s)) (add32 (sh h) (sh s)).

Definition sha256 (msg : list N) : sha_state :=
  let ws := be_words (sha_pad msg) in
  fold_left sha_compress (sha_blocks (length ws) ws) sha_H0.

(** [hashlib.sha256(msg).hexdigest()]. *)
Definition sha256_hexdigest (msg : list N) : string :=
  let s := sha256 msg in
  hex_digits 8 (sa s) +:+ hex_digits 8 (sb s) +:+ hex_digits 8 (sc s) +:+
  hex_digits 8 (sd s) +:+ hex_digits 8 (se s) +:+ hex_digits 8 (sf s) +:+
  hex_digits 8 (sg s) +:+ hex_digits 8 (sh s).


(** ** Values and clock *)

#[local] Set Warnings "-register-all".

(** What [response.json()] can return. A [dict] keeps its items in
    insertion order, one item per key. *)
Inductive pyval :=
| PNone
| PBool (b : bool)
| PInt (z : Z)
| PFloat (f : spec_float)
| PStr (s : string)
| PList (l : list pyval)
| PDict (d : list (string * pyval)).

(** [bool(v)]. *)
Definition py_truthy (v : pyval) : bool :=
  match v with
  | PNone => false
  | PBool b => b
  | PInt z => negb (z =? 0)%Z
  | PFloat (S754_zero _) => false
  | PFloat _ => true
  | PStr s => truthy s
  | PList [] => false
  | PList _ => true
  | PDict [] => false
  | PDict _ => true
  end.

(** [type(v).__name__]. *)
Definition py_type_name (v : pyval) : string :=
  match v with
  | PNone => "NoneType"
  | PBool _ => "bool"
  | PInt _ => "int"
  | PFloat _ => "float"
  | PStr _ => "str"
  | PList _ => "list"
  | PDict _ => "dict"
  end.

(** [v == s] for a [str] literal [s]. *)
Definition py_eq_str (v : pyval) (s : string) : bool :=
  match v with
  | PStr t => bool_decide (t = s)
  | _ => false
  end.

(** The item of a [dict] under key [k]. *)
Fixpoint dict_lookup (d : list (string * pyval)) (k : string) : option pyval :=
  match d with
  | [] => None
  | (k', v) :: d' => if bool_decide (k' = k) then Some v else dict_lookup d' k
  end.

(** [v.get(k, dflt)]: only a [dict] has the method. *)
Definition py_get (v : pyval) (k : string) (dflt : pyval) : exn + pyval :=
  match v with
  | PDict d => inr (default dflt (dict_lookup d k))
  | _ => inl (AttributeError ("'" +:+ py_type_name v +:+ "' object has no attribute 'get'"))
  end.

(** [datetime.now()]. *)
Record datetime := DateTime {
  year : Z; month : Z; day : Z; hour : Z; minute : Z; second : Z; microsecond : Z
}.

(** [s.zfill(k)] for the text of a non-negative number. *)
Definition zfill (k : nat) (s : string) : string :=
  string_of_list_ascii (repeat "0"%char (k - String.length s)) +:+ s.

(** [now.strftime("%Y%m%d_%H%M%S")]; the C library leaves [%Y] unpadded. *)
Definition strftime_stamp (now : datetime) : string :=
  str_int (year now) +:+ zfill 2 (str_int (month now)) +:+ zfill 2 (str_int (day now)) +:+
  "_" +:+
  zfill 2 (str_int (hour now)) +:+ zfill 2 (str_int (minute now)) +:+
  zfill 2 (str_int (second now)).

(** ** Pages *)

(** The templates are written with a backquote where the source has a
    double quote; [html] puts the double quotes back. *)
Fixpoint html (s : string) : string :=
  match s with
  | EmptyString => EmptyString
  | String c s' => (if Ascii.eqb c "`" then dq else String c EmptyString) +:+ html s'
  end.

(** [error_html] of [get_base_html], for a true [error]. *)
Definition error_html (error : string) : string :=
  html "
    <div class=`alert alert-error`>
        <p>" +:+
  error +:+
  html "</p>
    </div>
    ".

(** [success_html] of [get_base_html], for a true [success]. *)
Definition success_html (success : string) : string :=
  html "
    <div class=`alert alert-success`>
        <p>" +:+
  success +:+
  html "</p>
    </div>
    ".

(** The page frame that [get_base_html] returns. *)
Definition base_template (title error_block success_block content year : string) : string :=
  html "
    <!DOCTYPE html>
    <html lang=`en`>
    <head>
        <meta charset=`UTF-8`>
        <meta name=`viewport` content=`width=device-width, initial-scale=1.0`>
        <title>" +:+
  title +:+
  html " - Fyers OAuth</title>
        <link rel=`stylesheet` href=`/static/css/styles.css`>
    </head>
    <body>
        <header>
            <div class=`container`>
                <div class=`logo`>Fyers OAuth Integration</div>
            </div>
        </header>

        <main>
            <div class=`container`>
                " +:+
  error_block +:+
  html "
                " +:+
  success_block +:+
  html "
                " +:+
  content +:+
  html "
            </div>
        </main>

        <footer>
            <div class=`container`>
                <p>&copy; " +:+
  year +:+
  html " Fyers OAuth Integration</p>
            </div>
        </footer>

        <script src=`/static/js/scripts.js`></script>
    </body>
    </html>
    ".

(** [error_content] of the provider-error branch. *)
Definition provider_error_content (error error_description : string) : string :=
  html "
        <div class=`card`>
            <h2 class=`card-title`>Authentication Error</h2>
            <p>Fyers returned an error:</p>
            <pre>" +:+
  error +:+
  html ": " +:+
  error_description +:+
  html "</pre>
            <a href=`/` class=`btn`>Try Again</a>
        </div>
        ".

(** [token_content] of the success branch. *)
Definition token_content (access_token details token_path : string) : string :=
  html "
                <div class=`card`>
                    <h2 class=`card-title`>Authentication Successful</h2>
                    <p>Your access token has been retrieved and saved successfully!</p>

                    <div class=`token-info`>
                        <h3>Access Token</h3>
                        <pre id=`access-token`>" +:+
  access_token +:+
  html "</pre>
                        <button class=`btn copy-btn` data-target=`access-token`>Copy Token</button>
                    </div>

                    <div class=`token-info`>
                        <h3>Token Details</h3>
                        <button class=`btn toggle-btn` data-target=`token-details`>Show Details</button>
                        <pre id=`token-details` class=`hidden`>" +:+
  details +:+
  html "</pre>
                        <button class=`btn copy-btn hidden` data-target=`token-details`>Copy Details</button>
                    </div>

                    <div style=`margin-top: 2rem;`>
                        <p>Token has been saved to: <code>" +:+
  token_path +:+
  html "</code></p>
                        <a href=`/` class=`btn`>Back to Home</a>
                    </div>
                </div>
                ".

(** [error_content] of the API-error branch. *)
Definition api_error_content (error_message details : string) : string :=
  html "
                <div class=`card`>
                    <h2 class=`card-title`>API Error</h2>
                    <p>Failed to retrieve access token:</p>
                    <pre>" +:+
  error_message +:+
  html "</pre>
                    <div>
                        <h3>Response Details:</h3>
                        <pre>" +:+
  details +:+
  html "</pre>
                    </div>
                    <a href=`/` class=`btn`>Try Again</a>
                </div>
                ".

(** [error_content] of the [except Exception] branch. *)
Definition exception_content (e : string) : string :=
  html "
        <div class=`card`>
            <h2 class=`card-title`>Error</h2>
            <p>An error occurred while processing your authentication:</p>
            <pre>" +:+
  e +:+
  html "</pre>
            <a href=`/` class=`btn`>Try Again</a>
        </div>
        ".

(** [get_base_html(title, content, error, success)], the clock read at [now]. *)
Definition get_base_html (now : datetime) (title content : string)
    (error success : option string) : string :=
  let error_block := if truthy_opt error then error_html (str_opt error) else EmptyString in
  let success_block := if truthy_opt success then success_html (str_opt success) else EmptyString in
  base_template title error_block success_block content (str_int (year now)).

(** The four fixed page bodies of [callback]. *)
Definition missing_state_content : string :=
  "<div class='card'><h2 class='card-title'>Error</h2><p>Missing state parameter</p><a href='/' class='btn'>Try Again</a></div>".

Definition invalid_state_content : string :=
  "<div class='card'><h2 class='card-title'>Security Error</h2><p>Invalid state parameter. This could be a CSRF attempt.</p><a href='/' class='btn'>Try Again</a></div>".

Definition state_format_content : string :=
  "<div class='card'><h2 class='card-title'>Error</h2><p>Invalid state format</p><a href='/' class='btn'>Try Again</a></div>".

Definition missing_code_content : string :=
  "<div class='card'><h2 class='card-title'>Error</h2><p>Missing authorization code</p><a href='/' class='btn'>Try Again</a></div>".

(** The eight [return get_base_html(...)] of [callback], in source order. *)
Definition provider_error_page (now : datetime) (error error_description : string) : string :=
  get_base_html now "Authentication Error"
    (provider_error_content error error_description)
    (Some ("Fyers error: " +:+ error)) None.

Definition missing_state_page (now : datetime) : string :=
  get_base_html now "Error" missing_state_content (Some "Missing state parameter") None.

Definition invalid_state_page (now : datetime) : string :=
  get_base_html now "Error" invalid_state_content (Some "Security validation failed") None.

Definition state_format_page (now : datetime) : string :=
  get_base_html now "Error" state_format_content (Some "Invalid state format") None.

Definition missing_code_page (now : datetime) : string :=
  get_base_html now "Error" missing_code_content (Some "Missing authorization code") None.

Definition success_page (now : datetime) (access_token details token_path : string) : string :=
  get_base_html now "Authentication Successful"
    (token_content access_token details token_path)
    None (Some "Authentication successful!").

Definition api_error_page (now : datetime) (error_message details : string) : string :=
  get_base_html now "API Error" (api_error_content error_message details)
    (Some ("API error: " +:+ error_message)) None.

Definition exception_page (now : datetime) (e : string) : string :=
  get_base_html now "Error" (exception_content e)
    (Some "Failed to generate access token") None.

(** ** The process and its surroundings *)

(** One entry of the module-level dict [states]. *)
Record pending := Pending { value : string; created_at : datetime }.

(** The JSON body of the token request. *)
Record payload := Payload { grant_type : string; appIdHash : string; code : string }.

(** What [client.post] hands back: the status and the outcome of
    [response.json()] (the text of the decoding error, or the value). *)
Record response := Response { status_code : Z; response_json : string + pyval }.

(** What a handler run does that is seen outside the process. *)
Inductive event :=
| Log (level msg : string)
| HttpPost (url : string) (headers : list (string * string)) (body : payload)
| FileWrite (path content : string).

(** The mutable store: the dict [states], the files under [data/tokens],
    and the events so far, oldest first. *)
Record world := World {
  states : gmap string pending;
  files : gmap string string;
  trace : list event
}.

(** What one run of [callback] reads from outside: the provider's answer to
    the request (or the text of the transport error), whether the [with]
    block that writes a path fails (and the text of that error), the two
    clock readings, at line 517 and inside [get_base_html], whether
    [httpx.AsyncClient()] raises (and the text of that error), and, for a
    write that fails, how much of the text had reached the file: [None]
    when [open] itself raised, so that the file was not touched, [Some n]
    when the file was opened, and so created or emptied, and [n] bytes
    were written before [json.dump] or the closing of the file raised. *)
Record env := Env {
  post : string -> list (string * string) -> payload -> string + response;
  open_w : string -> option string;
  now_stamp : datetime;
  now_page : datetime;
  client_error : option string;
  kept_w : string -> option nat
}.

(** [APP_ID] and [SECRET_KEY] of the environment. *)
Record config := Config { APP_ID : pystr; SECRET_KEY : pystr }.

(** The query parameters of [/fyers/callback], each [Query(None)]. *)
Record query := Query {
  q_code : option string;
  q_auth_code : option string;
  q_state : option string;
  q_error : option string;
  q_error_description : option string
}.

Definition set_states (st : gmap string pending) (w : world) : world :=
  World st (files w) (trace w).

Definition add_event (ev : event) (w : world) : world :=
  World (states w) (files w) (trace w ++ [ev]).

(** [logger.info], [logger.error], [logger.exception]: the formatted line. *)
Definition log (level msg : string) (w : world) : world :=
  add_event (Log level msg) w.

(** ** [generate_state] and the state check *)

(** [generate_state()] on the 16 random bytes [rnd] of [uuid4] (as one
    number), the bytes [tok] of [token_bytes(32)] and the clock. Returns
    [(state_id, state_value)] and the dict after the store. *)
Definition generate_state (rnd : N) (tok : list N) (now : datetime)
    (st : gmap string pending) : string * string * gmap string pending :=
  let state_id := uuid_str (uuid4 rnd) in
  let state_value := token_urlsafe tok in
  (state_id, state_value, <[state_id := Pending state_value now]> st).

(** The [state] parameter [login] puts in the authorization URL. *)
Definition login_state (state_id state_value : string) : string :=
  state_id +:+ ":" +:+ state_value.

(** How the [try] block of lines 449-463 leaves. *)
Inductive validation := Valid | NotFound | Mismatch | MalformedInput.

#[global] Instance validation_eq_dec : EqDecision validation.
Proof. solve_decision. Defined.

(** Lines 450-458 on the dict [st]: the unpacking of [split] fails on a
    text without colon; [state_id not in states] is tested first and the
    stored value second; only a state that passed both is popped. *)
Definition consume (st : gmap string pending) (state : string)
    : validation * gmap string pending :=
  match split_colon_1 state with
  | [state_id; state_value] =>
      match st !! state_id with
      | None => (NotFound, st)
      | Some p =>
          if bool_decide (value p = state_value)
          then (Valid, delete state_id st)
          else (Mismatch, st)
      end
  | _ => (MalformedInput, st)
  end.

(** ** The [try] block of the exchange: state and exceptions *)

Definition M (A : Type) : Type := world -> world * (exn + A).

#[global] Instance M_ret : MRet M := fun A a w => (w, inr a).

#[global] Instance M_bind : MBind M := fun A B k m w =>
  match m w with
  | (w', inr a) => k a w'
  | (w', inl e) => (w', inl e)
  end.

Definition raise {A : Type} (e : exn) : M A := fun w => (w, inl e).

(** A pure step that may raise. *)
Definition lift {A : Type} (r : exn + A) : M A := fun w => (w, r).

Definition emit (ev : event) : M unit := fun w => (add_event ev w, inr tt).

(** [await client.post(url, headers=headers, json=payload)]. *)
Definition http_post (e : env) (url : string) (headers : list (string * string))
    (body : payload) : M response :=
  fun w =>
    let w' := add_event (HttpPost url headers body) w in
    match post e url headers body with
    | inl msg => (w', inl (LibraryError msg))
    | inr r => (w', inr r)
    end.

(** [response.json()]. *)
Definition parse_json (r : response) : M pyval :=
  match response_json r with
  | inl msg => raise (LibraryError msg)
  | inr v => mret v
  end.

(** What [open(path, "w")] and the writing of [text] leave at [path]. *)
Definition put_file (path text : string) (w : world) : world :=
  World (states w) (<[path := text]> (files w)) (trace w ++ [FileWrite path text]).

(** [with open(path, "w") as f: json.dump(data, f, indent=4)]: the file
    holds the text afterwards, whatever it held before. When [open]
    raises, the files are as they were; when a later step raises, [open]
    has already created or emptied the file, and it holds the bytes of
    the text written until then. *)
Definition write_file (e : env) (path content : string) : M unit :=
  fun w =>
    match open_w e path with
    | Some msg =>
        match kept_w e path with
        | None => (w, inl (LibraryError msg))
        | Some n => (put_file path (substring 0 n content) w, inl (LibraryError msg))
        end
    | None => (put_file path content w, inr tt)
    end.

(** Line 501, [httpx.AsyncClient()]: the constructor may raise. *)
Definition open_client (e : env) : M unit :=
  match client_error e with
  | Some msg => raise (LibraryError msg)
  | None => mret tt
  end.

Definition token_url : string := "https://api-t1.fyers.in/api/v3/validate-authcode".

Definition token_headers : list (string * string) :=
  [("Content-Type", "application/json")].

Definition api_error_default : string := "Authentication failed. Please try again.".

Definition no_token_message : string :=
  "Authentication succeeded but no access token was returned".

(** Lines 475-476: [checksum_input] and its digest. *)
Definition app_id_hash (cfg : config) : exn + string :=
  let checksum_input := APP_ID cfg ++ pystr_of_string ":" ++ SECRET_KEY cfg in
  match utf8_encode checksum_input with
  | inr bs => inr (sha256_hexdigest bs)
  | inl ex => inl ex
  end.

(** Lines 479-483: the [payload] dict for checksum [h] and code [c]. *)
Definition token_request (h c : string) : payload :=
  Payload "authorization_code" h c.

(** Lines 517-519: [tokens_dir / f"token_{timestamp}.json"]. *)
Definition token_path (now : datetime) : string :=
  "data/tokens/" +:+ "token_" +:+ strftime_stamp now +:+ ".json".

(** Line 466: [auth_code if auth_code else code]. *)
Definition actual_code (q : query) : option string :=
  if truthy_opt (q_auth_code q) then q_auth_code q else q_code q.

Section Handler.

(** [json.dumps(v, indent=4)], and [str(v)] of a float, a list or a dict. *)
Variable json_dumps : pyval -> string.
Variable str_other : pyval -> string.

(** [f"{v}"]. *)
Definition py_str (v : pyval) : string :=
  match v with
  | PStr s => s
  | PNone => "None"
  | PBool true => "True"
  | PBool false => "False"
  | PInt z => str_int z
  | _ => str_other v
  end.

(** Lines 474-568, the body of the second [try]. Leaving the
    [async with] block closes the client, which is taken not to raise. *)
Definition exchange (cfg : config) (e : env) (actual_code : string) : M string :=
  app_id_hash ← lift (app_id_hash cfg);
  let body := token_request app_id_hash actual_code in
  _ ← open_client e;
  r ← http_post e token_url token_headers body;
  _ ← emit (Log "INFO" ("Token response status: " +:+ str_int (status_code r)));
  response_data ← parse_json r;
  ok ← (if (status_code r =? 200)%Z
        then s ← lift (py_get response_data "s" PNone); mret (py_eq_str s "ok")
        else mret false);
  if ok : bool then
    access_token ← lift (py_get response_data "access_token" PNone);
    if negb (py_truthy access_token) then raise (ValueError no_token_message)
    else
      let token_path := token_path (now_stamp e) in
      _ ← write_file e token_path (json_dumps response_data);
      _ ← emit (Log "INFO" ("Access token saved to " +:+ token_path));
      mret (success_page (now_page e) (py_str access_token)
              (json_dumps response_data) token_path)
  else
    error_message ← lift (py_get response_data "message" (PStr api_error_default));
    _ ← emit (Log "ERROR" ("API error: " +:+ str_int (status_code r) +:+ " - " +:+
                           py_str error_message));
    mret (api_error_page (now_page e) (py_str error_message) (json_dumps response_data)).

(** Lines 570-580, [except Exception as e]. *)
Definition exchange_failed (e : env) (ex : exn) (w : world) : string * world :=
  (exception_page (now_page e) (str_exn ex),
   log "ERROR" ("Error generating access token: " +:+ str_exn ex) w).

(** [callback(code, auth_code, state, error, error_description)]: the
    page returned and the store afterwards. *)
Definition callback (cfg : config) (e : env) (q : query) (w : world) : string * world :=
  if truthy_opt (q_error q) then
    let error := str_opt (q_error q) in
    let error_description := str_opt (q_error_description q) in
    (provider_error_page (now_page e) error error_description,
     log "ERROR" ("OAuth error: " +:+ error +:+ " - " +:+ error_description) w)
  else if negb (truthy_opt (q_state q)) then
    (missing_state_page (now_page e),
     log "ERROR" "Missing state parameter in callback" w)
  else
    let state := str_opt (q_state q) in
    match consume (states w) state with
    | (MalformedInput, _) =>
        (state_format_page (now_page e),
         log "ERROR"
           "Error validating state: not enough values to unpack (expected 2, got 1)" w)
    | (NotFound, _) | (Mismatch, _) =>
        (invalid_state_page (now_page e), log "ERROR" ("Invalid state: " +:+ state) w)
    | (Valid, st') =>
        let w := set_states st' w in
        let actual_code := actual_code q in
        if negb (truthy_opt actual_code) then
          (missing_code_page (now_page e),
           log "ERROR" "Missing authorization code in callback" w)
        else
          match exchange cfg e (str_opt actual_code) w with
          | (w', inr page) => (page, w')
          | (w', inl ex) => exchange_failed e ex w'
          end
    end.

End Handler.

(** ** Startup: the configuration read from the environment *)

(** [os.getenv(key, default)] on the environment [environ]: the default
    stands in only for a variable that is not set. *)
Definition getenv (environ : gmap string pystr) (key : string)
    (dflt : option pystr) : option pystr :=
  match environ !! key with
  | Some v => Some v
  | None => dflt
  end.

(** [bool(x)] for what [os.getenv] returned. *)
Definition env_truthy (o : option pystr) : bool :=
  match o with
  | Some (_ :: _) => true
  | _ => false
  end.

(** What the handlers read from the module: the credentials of [config]
    and [REDIRECT_URI]. *)
Record settings := Settings { s_config : config; s_redirect_uri : pystr }.

Definition missing_env_message : string := "Missing required environment variables".

(** Lines 41-49: the three values, or the exception that stops the import. *)
Definition load_settings (environ : gmap string pystr) : string + settings :=
  let app_id := getenv environ "APP_ID" (getenv environ "BROKER_API_KEY" None) in
  let secret_key := getenv environ "SECRET_KEY" (getenv environ "BROKER_API_SECRET" None) in
  let redirect_uri := getenv environ "REDIRECT_URI" None in
  if negb (env_truthy app_id) || negb (env_truthy secret_key) || negb (env_truthy redirect_uri)
  then inl missing_env_message
  else inr (Settings (Config (default [] app_id) (default [] secret_key))
                     (default [] redirect_uri)).

(** Line 744: the [APP_ID] as the start-up log shows it,
    [APP_ID[:5]] and a star for each further character. *)
Definition masked_app_id (app_id : pystr) : pystr :=
  take 5 app_id ++
  (if (5 <? length app_id)%nat then repeat (N_of_ascii "*") (length app_id - 5) else []).

(** ** [login] *)

Definition auth_base_url : string := "https://api-t1.fyers.in/api/v3/generate-authcode".

(** Lines 393-403: the four parameters joined as [k=v] with [&], nothing
    escaped. *)
Definition auth_url (s : settings) (state_id state_value : string) : pystr :=
  pystr_of_string auth_base_url ++ pystr_of_string "?" ++
  pystr_of_string "client_id=" ++ APP_ID (s_config s) ++
  pystr_of_string "&" ++ pystr_of_string "redirect_uri=" ++ s_redirect_uri s ++
  pystr_of_string "&" ++ pystr_of_string "response_type=" ++ pystr_of_string "code" ++
  pystr_of_string "&" ++ pystr_of_string "state=" ++
  pystr_of_string (login_state state_id state_value).

(** [error_content] of [login]. *)
Definition login_error_content (e : string) : string :=
  html "
        <div class=`card`>
            <h2 class=`card-title`>Error</h2>
            <p>An error occurred while redirecting to Fyers login:</p>
            <pre>" +:+
  e +:+
  html "</pre>
            <a href=`/` class=`btn`>Back to Home</a>
        </div>
        ".

(** The characters [urllib.parse.quote] never escapes, and those that
    [RedirectResponse] passes to it as [safe]. *)
Definition always_safe : string :=
  "ABCDEFGHIJKLMNOPQRSTUVWXYZabcdefghijklmnopqrstuvwxyz0123456789_.-~".

Definition redirect_safe : string := ":/%#?=@[]!$&'()*+,;".

Definition unquoted (b : N) : bool :=
  existsb (N.eqb b) (pystr_of_string always_safe ++ pystr_of_string redirect_safe).

Definition hex_upper (d : N) : N :=
  N_of_ascii (nth (N.to_nat d) (list_ascii_of_string "0123456789ABCDEF") "0"%char).

(** One byte of the URL: itself, or [%XX]. *)
Definition quote_byte (b : N) : pystr :=
  if unquoted b then [b]
  else [N_of_ascii "%"; hex_upper (N.shiftr b 4); hex_upper (N.land b 15)].

(** [quote(url, safe=redirect_safe)], as the constructor of
    [RedirectResponse] calls it for the [location] header: the text is
    encoded as UTF-8, which raises on a surrogate, and every byte that is
    not safe is escaped. *)
Definition quote (url : pystr) : exn + pystr :=
  match utf8_encode url with
  | inr bs => inr (flat_map quote_byte bs)
  | inl ex => inl ex
  end.

(** Lines 406-417, [except Exception as e]. *)
Definition login_failed (now_page : datetime) (e : string) (w : world)
    : (pystr + string) * world :=
  (inr (get_base_html now_page "Error" (login_error_content e)
          (Some "Failed to generate login URL") None),
   log "ERROR" ("Error generating auth URL: " +:+ e) w).

(** [login()]: [draw] is what the random source gives to [generate_state]
    (the number behind [uuid4] and the bytes of [token_bytes(32)]) or the
    text of the exception it raises; the answer is the [location] of the
    [RedirectResponse], or the error page. The state is stored and the
    URL is logged before [RedirectResponse(auth_url)] is built, which
    raises inside the [try] when the URL cannot be encoded. *)
Definition login (s : settings) (draw : string + N * list N)
    (now_state now_page : datetime) (w : world) : (pystr + string) * world :=
  match draw with
  | inr (rnd, tok) =>
      let '(state_id, state_value, st) := generate_state rnd tok now_state (states w) in
      let w1 := log "INFO" ("Generated Fyers auth URL for state_id: " +:+ state_id)
                  (set_states st w) in
      match quote (auth_url s state_id state_value) with
      | inr location => (inl location, w1)
      | inl ex => login_failed now_page (str_exn ex) w1
      end
  | inl e => login_failed now_page e w
  end.

(** ** The token pages: [list_tokens] and [view_token] *)

(** [s.split(sep)] for a one-character separator. *)
Fixpoint split_on (sep : ascii) (s : string) : list string :=
  match s with
  | EmptyString => [EmptyString]
  | String c s' =>
      if Ascii.eqb c sep then EmptyString :: split_on sep s'
      else match split_on sep s' with
           | a :: rest => String c a :: rest
           | [] => [String c EmptyString]
           end
  end.

(** [sep.join(l)]. *)
Fixpoint join (sep : string) (l : list string) : string :=
  match l with
  | [] => EmptyString
  | [a] => a
  | a :: rest => a +:+ sep +:+ join sep rest
  end.

(** [name.rfind(".")]. *)
Fixpoint rfind_dot (name : string) : option nat :=
  match name with
  | EmptyString => None
  | String c name' =>
      match rfind_dot name' with
      | Some i => Some (S i)
      | None => if Ascii.eqb c "." then Some O else None
      end
  end.

(** [Path.stem]: the name up to its last dot, when that dot is neither
    the first nor the last character. *)
Definition path_stem (name : string) : string :=
  match rfind_dot name with
  | Some i =>
      if (0 <? i)%nat && (i <? String.length name - 1)%nat then substring 0 i name else name
  | None => name
  end.

(** Some tail of [s] is [suf]. *)
Fixpoint ends_with (suf s : string) : bool :=
  bool_decide (s = suf) ||
  match s with
  | EmptyString => false
  | String _ s' => ends_with suf s'
  end.

(** What is left of [s] after the prefix [p]. *)
Fixpoint strip_prefix (p s : string) : option string :=
  match p, s with
  | EmptyString, _ => Some s
  | String a p', String b s' => if Ascii.eqb a b then strip_prefix p' s' else None
  | String _ _, EmptyString => None
  end.

(** There is a slash in [s]. *)
Fixpoint has_slash (s : string) : bool :=
  match s with
  | EmptyString => false
  | String c s' => Ascii.eqb c "/" || has_slash s'
  end.

(** The name of a file that lies directly in [data/tokens] and matches
    [*.json]. *)
Definition token_file_name (path : string) : option string :=
  match strip_prefix "data/tokens/" path with
  | Some name =>
      if negb (has_slash name) && ends_with ".json" name then Some name else None
  | None => None
  end.

(** [sorted(tokens_dir.glob("*.json"), reverse=True)], as names with
    their contents: paths of one directory compare as their names do. *)
Definition token_files (fs : gmap string string) : list (string * string) :=
  merge_sort (fun a b => String.le (fst b) (fst a))
    (omap (fun kv => match token_file_name (fst kv) with
                     | Some name => Some (name, snd kv)
                     | None => None
                     end)
          (map_to_list fs)).

(** A byte that continues a UTF-8 character. *)
Definition is_continuation (c : ascii) : bool :=
  N.land (N_of_ascii c) 0xC0 =? 0x80.

(** [s[:n]] for a [str] held as UTF-8 bytes: its first [n] characters. *)
Fixpoint take_chars (n : nat) (s : string) : string :=
  match s with
  | EmptyString => EmptyString
  | String c s' =>
      if is_continuation c then String c (take_chars n s')
      else match n with
           | O => EmptyString
           | S n' => String c (take_chars n' s')
           end
  end.

(** [v[:20]], or the text of the [TypeError] (as CPython 3.11 words it). *)
Definition py_slice_20 (v : pyval) : string + pyval :=
  match v with
  | PStr s => inr (PStr (take_chars 20 s))
  | PList l => inr (PList (take 20 l))
  | PDict _ => inl "unhashable type: 'slice'"
  | _ => inl ("'" +:+ py_type_name v +:+ "' object is not subscriptable")
  end.

(** [tokens_dir / f"{token_id}.json"] for a [token_id] without slash (the
    route [/token/{token_id}] matches one path segment). *)
Definition token_file_path (token_id : string) : string :=
  "data/tokens/" +:+ token_id +:+ ".json".

(** [created_time] of lines 606-607. *)
Definition created_time (stem : string) : string :=
  match tail (split_on "_" stem) with
  | [] => "Unknown"
  | parts => join "_" parts
  end.

(** [token_list_content] of [list_tokens] for an empty directory. *)
Definition no_tokens_content : string :=
  html "
            <div class=`card`>
                <h2 class=`card-title`>Saved Tokens</h2>
                <p>No tokens have been saved yet.</p>
                <a href=`/` class=`btn`>Back to Home</a>
            </div>
            ".

(** The card [list_tokens] adds for a file it could read. *)
Definition token_item (name created_time stem shown : string) : string :=
  html "
                <div class=`card` style=`margin-bottom: 1rem;`>
                    <h3>" +:+
  name +:+
  html "</h3>
                    <p>Created: " +:+
  created_time +:+
  html "</p>
                    <pre id=`token-" +:+
  stem +:+
  html "` style=`max-width: 100%; overflow-x: auto;`>" +:+
  shown +:+
  html "...</pre>
                    <button class=`btn copy-btn` data-target=`token-" +:+
  stem +:+
  html "`>Copy Token</button>
                    <a href=`/token/" +:+
  stem +:+
  html "` class=`btn` style=`margin-left: 0.5rem;`>View Details</a>
                </div>
                ".

(** The card [list_tokens] adds for a file it could not read. *)
Definition token_error_item (name e : string) : string :=
  html "
                <div class=`card` style=`margin-bottom: 1rem;`>
                    <h3>" +:+
  name +:+
  html "</h3>
                    <p>Error reading token: " +:+
  e +:+
  html "</p>
                </div>
                ".

(** [token_list_content] of [list_tokens]. *)
Definition token_list_content (token_items : string) : string :=
  html "
        <div class=`card`>
            <h2 class=`card-title`>Saved Tokens</h2>
            <p>The following tokens have been saved:</p>

            <div style=`margin: 1rem 0;`>
                " +:+
  token_items +:+
  html "
            </div>

            <a href=`/` class=`btn`>Back to Home</a>
        </div>
        ".

(** [error_content] of [view_token] for a file that is not there. *)
Definition token_not_found_content : string :=
  html "
            <div class=`card`>
                <h2 class=`card-title`>Token Not Found</h2>
                <p>The requested token does not exist.</p>
                <a href=`/tokens` class=`btn`>View All Tokens</a>
            </div>
            ".

(** [token_content] of [view_token]. *)
Definition token_detail_content (token_id access_token details : string) : string :=
  html "
        <div class=`card`>
            <h2 class=`card-title`>Token Details: " +:+
  token_id +:+
  html "</h2>

            <div class=`token-info`>
                <h3>Access Token</h3>
                <pre id=`access-token-detail`>" +:+
  access_token +:+
  html "</pre>
                <button class=`btn copy-btn` data-target=`access-token-detail`>Copy Token</button>
            </div>

            <div class=`token-info`>
                <h3>Complete Token Data</h3>
                <pre id=`token-data`>" +:+
  details +:+
  html "</pre>
                <button class=`btn copy-btn` data-target=`token-data`>Copy Data</button>
            </div>

            <div style=`margin-top: 1rem;`>
                <a href=`/tokens` class=`btn`>Back to Token List</a>
            </div>
        </div>
        ".

(** [error_content] of the [except] of [view_token]. *)
Definition view_error_content (e : string) : string :=
  html "
        <div class=`card`>
            <h2 class=`card-title`>Error</h2>
            <p>An error occurred while viewing token details:</p>
            <pre>" +:+
  e +:+
  html "</pre>
            <a href=`/tokens` class=`btn`>Back to Token List</a>
        </div>
        ".


Section TokenPages.

(** [json.load] of a file's text (the value, or the text of the error),
    [json.dumps(v, indent=4)], and [str(v)] of a float, a list or a dict. *)
Variable json_loads : string -> string + pyval.
Variable json_dumps : pyval -> string.
Variable str_other : pyval -> string.

(** Lines 602-625, one turn of the loop: the card of the file [name] with
    text [content], and the text of the exception if one was caught. *)
Definition token_card (name content : string) : string * option string :=
  let failed e := (token_error_item name e, Some e) in
  match json_loads content with
  | inl e => failed e
  | inr token_data =>
      match py_get token_data "access_token" (PStr "No token found") with
      | inl ex => failed (str_exn ex)
      | inr access_token =>
          let stem := path_stem name in
          match py_slice_20 access_token with
          | inl e => failed e
          | inr shown =>
              (token_item name (created_time stem) stem (py_str str_other shown), None)
          end
      end
  end.

(** The loop of lines 601-625 over the sorted files: [token_items] and
    the store with the errors logged. *)
Fixpoint token_cards (l : list (string * string)) (w : world) : string * world :=
  match l with
  | [] => (EmptyString, w)
  | (name, content) :: rest =>
      let '(card, err) := token_card name content in
      let w1 := match err with
                | Some e => log "ERROR" ("Error reading token file " +:+ "data/tokens/" +:+
                                         name +:+ ": " +:+ e) w
                | None => w
                end in
      let '(items, w2) := token_cards rest w1 in
      (card +:+ items, w2)
  end.

(** [list_tokens()], the clock of [get_base_html] read at [now]. The
    directory is read from the store, which cannot fail, and every
    exception of the loop body is caught inside the loop: the outer
    [except] of lines 640-651 has nothing to catch and is left out. *)
Definition list_tokens (now : datetime) (w : world) : string * world :=
  match token_files (files w) with
  | [] => (get_base_html now "No Tokens" no_tokens_content None None, w)
  | l =>
      let '(token_items, w') := token_cards l w in
      (get_base_html now "Saved Tokens" (token_list_content token_items) None None, w')
  end.

(** Lines 696-706, [except Exception as e]. *)
Definition view_failed (now : datetime) (e : string) (w : world) : string * world :=
  (get_base_html now "Error" (view_error_content e)
     (Some "Failed to view token details") None,
   log "ERROR" ("Error viewing token: " +:+ e) w).

(** [view_token(token_id)]. *)
Definition view_token (now : datetime) (token_id : string) (w : world) : string * world :=
  match files w !! token_file_path token_id with
  | None =>
      (get_base_html now "Token Not Found" token_not_found_content
         (Some "Token not found") None, w)
  | Some content =>
      match json_loads content with
      | inl e => view_failed now e w
      | inr token_data =>
          match py_get token_data "access_token" (PStr "No token found") with
          | inl ex => view_failed now (str_exn ex) w
          | inr access_token =>
              (get_base_html now ("Token: " +:+ token_id)
                 (token_detail_content token_id (py_str str_other access_token)
                    (json_dumps token_data))
                 None None, w)
          end
      end
  end.

End TokenPages.

(** ** Vocabulary of the statements *)

(** No colon in the text. *)
Definition colon_free (s : string) : Prop :=
  Forall (fun c => c <> ":"%char) (list_ascii_of_string s).

(** [p] opens [s]. *)
Fixpoint is_prefix (p s : string) : bool :=
  match p, s with
  | EmptyString, _ => true
  | String a p', String b s' => Ascii.eqb a b && is_prefix p' s'
  | String _ _, EmptyString => false
  end.

(** [needle in hay]. *)
Fixpoint contains (needle hay : string) : bool :=
  is_prefix needle hay ||
  match hay with
  | EmptyString => false
  | String _ hay' => contains needle hay'
  end.

(** The callback passes the error check, the state check and the code
    check, and so enters the second [try]. *)
Definition reaches_exchange (q : query) (w : world) : Prop :=
  truthy_opt (q_error q) = false /\
  truthy_opt (q_state q) = true /\
  fst (consume (states w) (str_opt (q_state q))) = Valid /\
  truthy_opt (actual_code q) = true.

(** The provider answers the token request of the callback [q] with [r]:
    the checksum is computed, the client is built, and the request it
    sends comes back with [r]. *)
Definition answers (cfg : config) (e : env) (q : query) (r : response) : Prop :=
  exists h, app_id_hash cfg = inr h /\ client_error e = None /\
    post e token_url token_headers (token_request h (str_opt (actual_code q))) = inr r.

(** The answer [r] is HTTP 200 with the JSON object [d], whose [s] is ["ok"]. *)
Definition accepted (r : response) (d : list (string * pyval)) : Prop :=
  status_code r = 200%Z /\
  response_json r = inr (PDict d) /\
  py_eq_str (default PNone (dict_lookup d "s")) "ok" = true.

(** The store once the request [b] is sent and the status [st] of the
    answer is logged. *)
Definition answered (b : payload) (st : Z) (w : world) : world :=
  add_event (Log "INFO" ("Token response status: " +:+ str_int st))
    (add_event (HttpPost token_url token_headers b) w).

(** The events a handler run added to the trace [before]. *)
Definition new_events (before after : list event) : list event :=
  drop (length before) after.

(** The token requests among the events. *)
Definition posts (evs : list event) : list payload :=
  omap (fun ev => match ev with HttpPost _ _ b => Some b | _ => None end) evs.

(** The token requests among the events, with their URL and headers. *)
Definition requests (evs : list event) : list event :=
  List.filter (fun ev => match ev with HttpPost _ _ _ => true | _ => false end) evs.

(** A character that stands for itself in the query of a URL: a letter,
    a digit, [-], [_] or [:]. *)
Definition url_state_char (c : ascii) : bool :=
  let n := N_of_ascii c in
  ((48 <=? n) && (n <=? 58)) || ((65 <=? n) && (n <=? 90)) ||
  ((97 <=? n) && (n <=? 122)) || (n =? 45) || (n =? 95).

(** Every character of the text stands for itself in the query of a URL. *)
Definition url_safe (s : string) : Prop :=
  Forall (fun c => url_state_char c = true) (list_ascii_of_string s).

(** ** Sample data for the concrete runs *)

Definition sample_now : datetime := DateTime 2024 1 2 3 4 5 0.

(** One pending login, issued as [("abc-123", "Xyz")]. *)
Definition sample_states : gmap string pending :=
  {["abc-123" := Pending "Xyz" sample_now]}.

Definition sample_world : world := World sample_states ∅ [].

Definition sample_cfg : config :=
  Config (pystr_of_string "APPID-100") (pystr_of_string "SECRET").

Definition sample_body : pyval :=
  PDict [("s", PStr "ok"); ("access_token", PStr "TOK1")].

(** A run whose token request is answered by [r], whose file write fails
    with [open_error] if given, at [sample_now]; the client is built, and
    a write that fails leaves the file empty. *)
Definition sample_env (r : string + response) (open_error : option string) : env :=
  Env (fun _ _ _ => r) (fun _ => open_error) sample_now sample_now None
      (fun _ => Some 0%nat).

(** A callback with [code=AUTH1] and the given [state]. *)
Definition sample_query (state : string) : query :=
  Query (Some "AUTH1") None (Some state) None None.

(** The provider accepts the code and returns [sample_body]. *)
Definition sample_ok : string + response := inr (Response 200 (inr sample_body)).

(** A gateway answers 502 with a body that is no JSON. *)
Definition sample_bad_gateway : string + response :=
  inr (Response 502 (inl "Expecting value: line 1 column 1 (char 0)")).

(** The provider rejects the code. *)
Definition sample_rejected : string + response :=
  inr (Response 200 (inr (PDict [("s", PStr "error"); ("message", PStr "invalid code")]))).

(** The provider says ok and sends no token. *)
Definition sample_no_token : string + response :=
  inr (Response 200 (inr (PDict [("s", PStr "ok")]))).

Definition sample_disk_full : string := "[Errno 28] No space left on device".

(** Two pending logins, and the answers to their two exchanges. *)
Definition sample_two_states : gmap string pending :=
  <["def-456" := Pending "Uvw" sample_now]> sample_states.

Definition sample_body_2 : pyval :=
  PDict [("s", PStr "ok"); ("access_token", PStr "TOK2")].

Definition sample_ok_2 : string + response := inr (Response 200 (inr sample_body_2)).

(** The callback of the second login, with [code=AUTH2]. *)
Definition sample_query_2 : query :=
  Query (Some "AUTH2") None (Some "def-456:Uvw") None None.

(** The provider reports that the user refused. *)
Definition sample_denied : query :=
  Query None None (Some "abc-123:Xyz") (Some "access_denied") (Some "User denied consent").

(** The SHA-256 of [APPID-100:SECRET], in hex. *)
Definition sample_hash : string :=
  "2141a1d658dba8f7f64117ed5d17ade07e0981884c4af73b98513380c747cbbb".

(** The samples print a value by the name of its type. *)
Definition sample_callback : config -> env -> query -> world -> string * world :=
  callback py_type_name py_type_name.

(** An environment with the three variables set. *)
Definition sample_environ : gmap string pystr :=
  {[ "APP_ID" := pystr_of_string "APPID-100";
     "SECRET_KEY" := pystr_of_string "SECRET";
     "REDIRECT_URI" := pystr_of_string "http://localhost:8000/callback" ]}.

Definition sample_settings : settings :=
  Settings sample_cfg (pystr_of_string "http://localhost:8000/callback").

(** [APP_ID] is set to the empty string, and the broker variable is set. *)
Definition sample_environ_empty_id : gmap string pystr :=
  <["APP_ID" := []]> (<["BROKER_API_KEY" := pystr_of_string "BROKER-1"]> sample_environ).

(** A callback that carries both [auth_code] and [code]. *)
Definition sample_query_both : query :=
  Query (Some "AUTH1") (Some "AUTH9") (Some "abc-123:Xyz") None None.

(** A callback with a good state, no [code] and an empty [auth_code]. *)
Definition sample_query_no_code : query :=
  Query None (Some EmptyString) (Some "abc-123:Xyz") None None.

(** The HTTP client cannot connect. *)
Definition sample_refused : string + response := inl "Connection refused".

(** The provider says ok and sends an empty token. *)
Definition sample_empty_token : response :=
  Response 200 (inr (PDict [("s", PStr "ok"); ("access_token", PStr EmptyString)])).

(** The provider answers with a JSON list. *)
Definition sample_list_answer : response := Response 200 (inr (PList [])).

(** The same pending login as in [sample_world], stored a year earlier. *)
Definition sample_old_world : world :=
  World {["abc-123" := Pending "Xyz" (DateTime 2023 1 2 3 4 5 0)]} ∅ [].

(** A token directory with one file, and a reader that reads
    [sample_body] from any text. *)
Definition sample_token_world : world :=
  World ∅ {["data/tokens/token_20240102_030405.json" := "dict"%string]} [].

Definition sample_json_loads : string -> string + pyval := fun _ => inr sample_body.

(** The library routines stay folded under [simpl]. *)
Arguments sha256_hexdigest : simpl never.
Arguments utf8_encode : simpl never.
Arguments html : simpl never.
Arguments str_int : simpl never.
Arguments strftime_stamp : simpl never.
Arguments uuid_str : simpl never.
Arguments token_urlsafe : simpl never.
Arguments get_base_html : simpl never.

(** * Properties *)

(** ** The library routines on known values *)

Example sha256_empty :
  sha256_hexdigest [] = "e3b0c44298fc1c149afbf4c8996fb92427ae41e4649b934ca495991b7852b855".
Proof. vm_compute. reflexivity. Qed.

Example sha256_abc :
  sha256_hexdigest (pystr_of_string "abc")
    = "ba7816bf8f01cfea414140de5dae2223b00361a396177a9cb410ff61f20015ad".
Proof. vm_compute. reflexivity. Qed.

Example sha256_two_blocks :
  sha256_hexdigest
    (pystr_of_string "abcdbcdecdefdefgefghfghighijhijkijkljklmklmnlmnomnopnopq")
    = "248d6a61d20638b8e5c026930c3e6039a33ce45964ff2167f6ecedd419db06c1".
Proof. vm_compute. reflexivity. Qed.

Example sample_hash_value : app_id_hash sample_cfg = inr sample_hash.
Proof. vm_compute. reflexivity. Qed.

Example utf8_encode_mixed :
  utf8_encode [233; 8364; 0x1F600] = inr [195; 169; 226; 130; 172; 240; 159; 152; 128].
Proof. reflexivity. Qed.

Example utf8_encode_surrogate :
  str_exn (UnicodeEncodeError 0xdc80 2 2)
    = "'utf-8' codec can't encode character '\udc80' in position 2: surrogates not allowed"
  /\ utf8_encode [97; 98; 0xdc80; 99] = inl (UnicodeEncodeError 0xdc80 2 2).
Proof. split; reflexivity. Qed.

Example uuid4_all_ones : uuid_str (uuid4 (N.ones 128)) = "ffffffff-ffff-4fff-bfff-ffffffffffff".
Proof. vm_compute. reflexivity. Qed.

Example token_urlsafe_five_bytes : token_urlsafe [255; 254; 253; 252; 251] = "__79_Ps".
Proof. reflexivity. Qed.

Example strftime_stamp_sample : strftime_stamp sample_now = "20240102_030405".
Proof. reflexivity. Qed.

Example split_colon_1_twice : split_colon_1 "abc:de:f" = ["abc"; "de:f"].
Proof. reflexivity. Qed.


(** ** Text *)

Lemma append_cons c s t : String c s +:+ t = String c (s +:+ t).
Proof. reflexivity. Qed.

Lemma append_nil_l t : EmptyString +:+ t = t.
Proof. reflexivity. Qed.

Lemma append_assoc s t u : (s +:+ t) +:+ u = s +:+ (t +:+ u).
Proof. induction s as [|c s IH]; [done|]. rewrite !append_cons. by rewrite IH. Qed.

Lemma append_inj_l p a b : p +:+ a = p +:+ b -> a = b.
Proof. induction p as [|c p IH]; [done|]. rewrite !append_cons. intros [= H]. auto. Qed.

Lemma colon_free_nil : colon_free EmptyString.
Proof. constructor. Qed.

Lemma colon_free_cons c s : c <> ":"%char -> colon_free s -> colon_free (String c s).
Proof. intros Hc Hs. by constructor. Qed.

Lemma colon_free_app s t : colon_free s -> colon_free t -> colon_free (s +:+ t).
Proof.
  induction s as [|c s IH]; [done|].
  rewrite append_cons. intros Hs Ht. inversion_clear Hs.
  apply colon_free_cons; auto.
Qed.

Lemma colon_free_substring s : colon_free s -> forall n m, colon_free (substring n m s).
Proof.
  induction s as [|c s IH]; intros Hs n m.
  - destruct n, m; constructor.
  - inversion_clear Hs. destruct n as [|n]; simpl.
    + destruct m as [|m]; [constructor|]. apply colon_free_cons; auto.
    + auto.
Qed.

Lemma hex_char_not_colon d : hex_char d <> ":"%char.
Proof.
  unfold hex_char.
  assert (H : Forall (fun c => c <> ":"%char) hex_alphabet).
  { unfold hex_alphabet. simpl. repeat constructor; discriminate. }
  destruct (nth_in_or_default (N.to_nat d) hex_alphabet "0"%char) as [Hin | ->]; [|discriminate].
  rewrite Forall_forall in H. apply H. by apply list_elem_of_In.
Qed.

Lemma colon_free_hex_digits k : forall n, colon_free (hex_digits k n).
Proof.
  induction k as [|k IH]; intros n; simpl; [constructor|].
  apply colon_free_app; [apply IH|].
  apply colon_free_cons; [apply hex_char_not_colon | constructor].
Qed.

Lemma colon_free_uuid_str u : colon_free (uuid_str u).
Proof.
  unfold uuid_str. cbv zeta.
  assert (Hd : colon_free "-") by (apply colon_free_cons; [discriminate | constructor]).
  do 4 (apply colon_free_app; [apply colon_free_substring, colon_free_hex_digits |];
        apply colon_free_app; [exact Hd |]).
  apply colon_free_substring, colon_free_hex_digits.
Qed.

Lemma split_colon_1_join a b :
  colon_free a -> split_colon_1 (login_state a b) = [a; b].
Proof.
  unfold login_state. induction a as [|c a IH]; intros Ha.
  - reflexivity.
  - inversion_clear Ha as [|? ? Hc Ha']. rewrite append_cons. simpl.
    destruct (Ascii.eqb_spec c ":"%char) as [->|_]; [done|].
    by rewrite IH.
Qed.

Lemma length_append s t : String.length (s +:+ t) = (String.length s + String.length t)%nat.
Proof. induction s as [|c s IH]; [done|]. rewrite append_cons. simpl. by rewrite IH. Qed.

Lemma length_hex_digits k : forall n, String.length (hex_digits k n) = k.
Proof.
  induction k as [|k IH]; intros n; [done|].
  cbn [hex_digits]. rewrite length_append, IH. simpl. lia.
Qed.

Lemma length_sha256_hexdigest msg : String.length (sha256_hexdigest msg) = 64%nat.
Proof. unfold sha256_hexdigest. cbv zeta. by rewrite !length_append, !length_hex_digits. Qed.

Lemma truthy_split_colon_1 s a b : split_colon_1 s = [a; b] -> truthy s = true.
Proof. by destruct s. Qed.

Lemma truthy_login_state a b : truthy (login_state a b) = true.
Proof. unfold login_state. by destruct a. Qed.

(** ** The state table *)

Section StateStore.
Implicit Types (st : gmap string pending) (p : pending).

Lemma consume_valid st state state_id secret p :
  split_colon_1 state = [state_id; secret] -> st !! state_id = Some p ->
  value p = secret -> consume st state = (Valid, delete state_id st).
Proof. intros Hs Hp Hv. unfold consume. rewrite Hs, Hp. by rewrite bool_decide_eq_true_2. Qed.

Lemma consume_mismatch st state state_id secret p :
  split_colon_1 state = [state_id; secret] -> st !! state_id = Some p ->
  value p <> secret -> consume st state = (Mismatch, st).
Proof. intros Hs Hp Hv. unfold consume. rewrite Hs, Hp. by rewrite bool_decide_eq_false_2. Qed.

Lemma consume_not_found st state state_id secret :
  split_colon_1 state = [state_id; secret] -> st !! state_id = None ->
  consume st state = (NotFound, st).
Proof. intros Hs Hp. unfold consume. by rewrite Hs, Hp. Qed.

Lemma consume_keeps_unless_valid st state :
  fst (consume st state) <> Valid -> snd (consume st state) = st.
Proof.
  unfold consume. repeat case_match; simpl; congruence.
Qed.
End StateStore.

(** ** The trace *)

Lemma new_events_app (t evs : list event) : new_events t (t ++ evs) = evs.
Proof. unfold new_events. by rewrite drop_app_length. Qed.

Lemma posts_app (a b : list event) : posts (a ++ b) = posts a ++ posts b.
Proof. unfold posts. apply omap_app. Qed.

(** ** The second [try] *)

Section Exchange.
Variables (json_dumps str_other : pyval -> string) (cfg : config) (e : env).

Abbreviation exchange' := (exchange json_dumps str_other cfg e).
Abbreviation py_str' := (py_str str_other).

Ltac run_exchange :=
  unfold exchange, answered, open_client, http_post, parse_json, write_file;
  unfold mbind, M_bind, mret, M_ret, lift, raise, emit, py_get.

Ltac finish_effects :=
  cbn [fst snd states trace files add_event put_file negb];
  split; [reflexivity|]; rewrite <- ?app_assoc; eexists; split; reflexivity.

(** The table is not touched, and the one request is sent exactly when
    the checksum could be computed and the client could be built. *)
Lemma exchange_effects c w :
  let w' := fst (exchange' c w) in
  states w' = states w /\
  exists evs, trace w' = trace w ++ evs /\
    posts evs = match app_id_hash cfg, client_error e with
                | inr h, None => [token_request h c]
                | _, _ => []
                end.
Proof.
  run_exchange.
  destruct (app_id_hash cfg) as [ex|h]; simpl.
  { split; [done|]. exists []. by rewrite app_nil_r. }
  destruct (client_error e) as [msg|]; simpl.
  { split; [done|]. exists []. by rewrite app_nil_r. }
  destruct (post e _ _ _) as [msg|r]; [finish_effects|].
  destruct (response_json r) as [msg|v]; [finish_effects|].
  destruct (status_code r =? 200)%Z.
  - destruct v as [| | | | |l|d]; try finish_effects.
    destruct (py_eq_str _ _).
    + destruct (py_truthy _); [|finish_effects].
      destruct (open_w e _); [destruct (kept_w e _)|]; finish_effects.
    + finish_effects.
  - destruct v as [| | | | |l|d]; finish_effects.
Qed.

Section Answered.
(** The checksum is [h], the client is built, and the provider answers
    the request with [r]. *)
Variables (h c : string) (r : response) (w : world).
Hypothesis Hhash : app_id_hash cfg = inr h.
Hypothesis Hclient : client_error e = None.
Hypothesis Hpost : post e token_url token_headers (token_request h c) = inr r.

Abbreviation answered' := (answered (token_request h c) (status_code r) w).
Abbreviation path := (token_path (now_stamp e)).

Lemma exchange_decode_error msg :
  response_json r = inl msg ->
  exchange' c w = (answered', inl (LibraryError msg)).
Proof. intros Hj. run_exchange. by rewrite Hhash, Hclient, Hpost, Hj. Qed.

Lemma exchange_rejected d :
  response_json r = inr (PDict d) ->
  status_code r <> 200%Z \/ py_eq_str (default PNone (dict_lookup d "s")) "ok" = false ->
  let error_message := default (PStr api_error_default) (dict_lookup d "message") in
  exchange' c w =
    (add_event (Log "ERROR" ("API error: " +:+ str_int (status_code r) +:+ " - " +:+
                             py_str' error_message)) answered',
     inr (api_error_page (now_page e) (py_str' error_message) (json_dumps (PDict d)))).
Proof.
  intros Hj Hno. run_exchange. rewrite Hhash, Hclient, Hpost, Hj.
  destruct (Z.eqb_spec (status_code r) 200) as [Hs|Hs]; [|done].
  destruct Hno as [Hno|Hno]; [done|]. by rewrite Hno.
Qed.

Section Accepted.
(** Status 200 and a JSON object whose [s] is ["ok"]. *)
Variable d : list (string * pyval).
Hypothesis Hj : response_json r = inr (PDict d).
Hypothesis Hstatus : status_code r = 200%Z.
Hypothesis Hok : py_eq_str (default PNone (dict_lookup d "s")) "ok" = true.

Lemma exchange_no_token :
  py_truthy (default PNone (dict_lookup d "access_token")) = false ->
  exchange' c w = (answered', inl (ValueError no_token_message)).
Proof.
  intros Ht. run_exchange. rewrite Hhash, Hclient, Hpost, Hj.
  destruct (Z.eqb_spec (status_code r) 200) as [_|]; [|done]. by rewrite Hok, Ht.
Qed.

Lemma exchange_write_error msg :
  py_truthy (default PNone (dict_lookup d "access_token")) = true ->
  open_w e path = Some msg ->
  exchange' c w =
    (match kept_w e path with
     | None => answered'
     | Some n => put_file path (substring 0 n (json_dumps (PDict d))) answered'
     end, inl (LibraryError msg)).
Proof.
  intros Ht Hw. run_exchange. rewrite Hhash, Hclient, Hpost, Hj.
  destruct (Z.eqb_spec (status_code r) 200) as [_|]; [|done]. rewrite Hok, Ht. cbn [negb].
  rewrite Hw. by destruct (kept_w e _).
Qed.

Lemma exchange_success :
  py_truthy (default PNone (dict_lookup d "access_token")) = true ->
  open_w e path = None ->
  exchange' c w =
    (add_event (Log "INFO" ("Access token saved to " +:+ path))
       (put_file path (json_dumps (PDict d)) answered'),
     inr (success_page (now_page e)
            (py_str' (default PNone (dict_lookup d "access_token")))
            (json_dumps (PDict d)) path)).
Proof.
  intros Ht Hw. run_exchange. rewrite Hhash, Hclient, Hpost, Hj.
  destruct (Z.eqb_spec (status_code r) 200) as [_|]; [|done]. rewrite Hok, Ht. cbn [negb]. by rewrite Hw.
Qed.
End Accepted.
End Answered.
End Exchange.

(** ** The handler, branch by branch *)

Section Callback.
Variables (json_dumps str_other : pyval -> string) (cfg : config) (e : env).

Abbreviation callback' := (callback json_dumps str_other cfg e).
Abbreviation exchange' := (exchange json_dumps str_other cfg e).

Lemma callback_provider_error q w :
  truthy_opt (q_error q) = true ->
  callback' q w =
    (provider_error_page (now_page e) (str_opt (q_error q)) (str_opt (q_error_description q)),
     log "ERROR" ("OAuth error: " +:+ str_opt (q_error q) +:+ " - " +:+
                  str_opt (q_error_description q)) w).
Proof. intros H. unfold callback. by rewrite H. Qed.

Lemma callback_missing_state q w :
  truthy_opt (q_error q) = false -> truthy_opt (q_state q) = false ->
  callback' q w =
    (missing_state_page (now_page e), log "ERROR" "Missing state parameter in callback" w).
Proof. intros H1 H2. unfold callback. by rewrite H1, H2. Qed.

Lemma callback_state_failure q w :
  truthy_opt (q_error q) = false -> truthy_opt (q_state q) = true ->
  fst (consume (states w) (str_opt (q_state q))) <> Valid ->
  callback' q w =
    match fst (consume (states w) (str_opt (q_state q))) with
    | MalformedInput =>
        (state_format_page (now_page e),
         log "ERROR"
           "Error validating state: not enough values to unpack (expected 2, got 1)" w)
    | _ =>
        (invalid_state_page (now_page e),
         log "ERROR" ("Invalid state: " +:+ str_opt (q_state q)) w)
    end.
Proof.
  intros H1 H2 Hv. unfold callback. rewrite H1, H2. cbn [negb].
  destruct (consume _ _) as [[] st']; cbn [fst] in *; done.
Qed.

Lemma callback_missing_code q w :
  truthy_opt (q_error q) = false -> truthy_opt (q_state q) = true ->
  fst (consume (states w) (str_opt (q_state q))) = Valid ->
  truthy_opt (actual_code q) = false ->
  callback' q w =
    (missing_code_page (now_page e),
     log "ERROR" "Missing authorization code in callback"
       (set_states (snd (consume (states w) (str_opt (q_state q)))) w)).
Proof.
  intros H1 H2 Hv Hc. unfold callback. rewrite H1, H2. cbn [negb].
  destruct (consume _ _) as [v st']; cbn [fst snd] in *. subst v. by rewrite Hc.
Qed.

Lemma callback_exchange q w :
  reaches_exchange q w ->
  callback' q w =
    match exchange' (str_opt (actual_code q))
            (set_states (snd (consume (states w) (str_opt (q_state q)))) w) with
    | (w', inr page) => (page, w')
    | (w', inl ex) => exchange_failed e ex w'
    end.
Proof.
  intros (H1 & H2 & Hv & Hc). unfold callback. rewrite H1, H2. cbn [negb].
  destruct (consume _ _) as [v st']; cbn [fst snd] in *. subst v. by rewrite Hc.
Qed.

(** Every run only appends to the trace, and sends the one token request
    only when it enters the second [try] with a checksum. *)
Lemma callback_effects q w :
  exists evs, trace (snd (callback' q w)) = trace w ++ evs /\
    (posts evs = [] \/
     reaches_exchange q w /\
     exists h, app_id_hash cfg = inr h /\
       posts evs = [token_request h (str_opt (actual_code q))]).
Proof.
  destruct (truthy_opt (q_error q)) eqn:H1.
  { rewrite callback_provider_error by done. eexists. split; [reflexivity|]. by left. }
  destruct (truthy_opt (q_state q)) eqn:H2; cycle 1.
  { rewrite callback_missing_state by done. eexists. split; [reflexivity|]. by left. }
  destruct (decide (fst (consume (states w) (str_opt (q_state q))) = Valid)) as [Hv|Hv]; cycle 1.
  { rewrite callback_state_failure by done.
    destruct (fst _); eexists; (split; [reflexivity|]); by left. }
  destruct (truthy_opt (actual_code q)) eqn:Hc; cycle 1.
  { rewrite callback_missing_code by done. eexists. split; [reflexivity|]. by left. }
  assert (Hr : reaches_exchange q w) by done.
  rewrite callback_exchange by done.
  pose proof (exchange_effects json_dumps str_other cfg e (str_opt (actual_code q))
                (set_states (snd (consume (states w) (str_opt (q_state q)))) w)) as Hx.
  cbv zeta in Hx. destruct Hx as (_ & evs & Ht & Hp).
  destruct (exchange _ _ _ _ _ _) as [w' [ex|page]]; cbn [fst snd] in *.
  - exists (evs ++ [Log "ERROR" ("Error generating access token: " +:+ str_exn ex)]).
    unfold exchange_failed, log, add_event. cbn [snd trace]. rewrite Ht.
    cbn [set_states trace]. split; [by rewrite app_assoc|].
    rewrite posts_app, app_nil_r. destruct (app_id_hash cfg), (client_error e); eauto.
  - exists evs. split; [done|]. destruct (app_id_hash cfg), (client_error e); eauto.
Qed.

Lemma callback_states q w :
  states (snd (callback' q w)) =
    if truthy_opt (q_error q) then states w
    else if truthy_opt (q_state q) then snd (consume (states w) (str_opt (q_state q)))
    else states w.
Proof.
  destruct (truthy_opt (q_error q)) eqn:H1.
  { by rewrite callback_provider_error. }
  destruct (truthy_opt (q_state q)) eqn:H2; cycle 1.
  { by rewrite callback_missing_state. }
  destruct (decide (fst (consume (states w) (str_opt (q_state q))) = Valid)) as [Hv|Hv]; cycle 1.
  { rewrite callback_state_failure by done. rewrite consume_keeps_unless_valid by done.
    by destruct (fst _). }
  destruct (truthy_opt (actual_code q)) eqn:Hc; cycle 1.
  { by rewrite callback_missing_code. }
  rewrite callback_exchange by done.
  pose proof (exchange_effects json_dumps str_other cfg e (str_opt (actual_code q))
                (set_states (snd (consume (states w) (str_opt (q_state q)))) w)) as Hx.
  cbv zeta in Hx. destruct Hx as (Hs & _).
  by destruct (exchange _ _ _ _ _ _) as [w' [ex|page]].
Qed.
End Callback.

(** ** Pages *)

Lemma is_prefix_app p s : is_prefix p (p +:+ s) = true.
Proof.
  induction p as [|c p IH]; [done|].
  rewrite append_cons. cbn [is_prefix]. by rewrite Ascii.eqb_refl, IH.
Qed.

Lemma contains_prefix t s : contains t (t +:+ s) = true.
Proof. destruct (t +:+ s) eqn:E; cbn [contains]; rewrite <- E, is_prefix_app; done. Qed.

Lemma contains_app_r t pre s : contains t s = true -> contains t (pre +:+ s) = true.
Proof.
  intros H. induction pre as [|c pre IH]; [done|].
  rewrite append_cons. cbn [contains]. rewrite IH. apply orb_true_r.
Qed.

Lemma contains_app_l t s post : contains t s = true -> contains t (s +:+ post) = true.
Proof.
  assert (Hp : forall a b, is_prefix t a = true -> is_prefix t (a +:+ b) = true).
  { induction t as [|c t IH]; intros a b; [done|].
    destruct a as [|c' a]; [done|]. rewrite append_cons. cbn [is_prefix].
    intros [-> ?]%andb_true_iff. rewrite IH by done. done. }
  induction s as [|c s IH]; intros H.
  - cbn [contains] in H. rewrite orb_false_r in H. destruct t; [|done].
    destruct (EmptyString +:+ post); done.
  - rewrite append_cons. cbn [contains] in *. apply orb_true_iff in H as [H|H].
    + rewrite <- append_cons, Hp by done. done.
    + rewrite IH by done. apply orb_true_r.
Qed.

(** Two pages with the same frame agree from the title on. *)
Lemma get_base_html_title now1 t1 c1 e1 s1 now2 t2 c2 e2 s2 :
  get_base_html now1 t1 c1 e1 s1 = get_base_html now2 t2 c2 e2 s2 ->
  exists r1 r2, t1 +:+ r1 = t2 +:+ r2.
Proof.
  unfold get_base_html, base_template. intros H%append_inj_l. eauto.
Qed.

Ltac titles_differ :=
  let H := fresh in
  intros H; apply get_base_html_title in H as (? & ? & H);
  rewrite !append_cons in H; discriminate H.

Lemma exception_page_not_api_error now1 m now2 m' details :
  exception_page now1 m <> api_error_page now2 m' details.
Proof. unfold exception_page, api_error_page. titles_differ. Qed.

Lemma exception_page_not_success now1 m now2 tok details path :
  exception_page now1 m <> success_page now2 tok details path.
Proof. unfold exception_page, success_page. titles_differ. Qed.

Lemma api_error_page_not_success now1 m d1 now2 tok details path :
  api_error_page now1 m d1 <> success_page now2 tok details path.
Proof. unfold api_error_page, success_page. titles_differ. Qed.

Lemma invalid_state_page_not_format now1 now2 :
  invalid_state_page now1 <> state_format_page now2.
Proof.
  unfold invalid_state_page, state_format_page, get_base_html, base_template.
  cbn [truthy_opt truthy str_opt]. unfold error_html.
  intros H. do 3 apply append_inj_l in H.
  rewrite !append_assoc in H. apply append_inj_l in H.
  rewrite !append_cons in H. discriminate H.
Qed.

Lemma success_page_shows_token now tok details path :
  contains tok (success_page now tok details path) = true.
Proof.
  unfold success_page, get_base_html, base_template, token_content.
  do 7 apply contains_app_r. apply contains_app_l.
  apply contains_app_r, contains_prefix.
Qed.

(** ** The state check of [callback] *)

Section StateCheck.
Variables (json_dumps str_other : pyval -> string).

Abbreviation callback' := (callback json_dumps str_other).

(** C1, as the handler has it: a callback without [error] whose [state]
    splits into the id of a pending entry and a secret removes that entry
    when the secret is the stored one (the check is [Valid], and a second
    callback with the same [state] finds nothing), and keeps it when the
    secret differs (the check is [Mismatch], the page is the security
    page, the table is the same, and a second callback with the same
    [state] is [Mismatch] again). *)
Theorem callback_removes_only_on_match cfg e q w state state_id secret p :
  truthy_opt (q_error q) = false ->
  q_state q = Some state ->
  split_colon_1 state = [state_id; secret] ->
  states w !! state_id = Some p ->
  let w' := snd (callback' cfg e q w) in
  (value p = secret ->
     fst (consume (states w) state) = Valid /\
     states w' = delete state_id (states w) /\
     fst (consume (states w') state) = NotFound) /\
  (value p <> secret ->
     fst (consume (states w) state) = Mismatch /\
     fst (callback' cfg e q w) = invalid_state_page (now_page e) /\
     states w' = states w /\
     fst (consume (states w') state) = Mismatch).
Proof.
  intros He Hq Hs Hp w'.
  assert (Hw' : states w' = snd (consume (states w) state)).
  { unfold w'. rewrite callback_states, He, Hq. cbn [truthy_opt str_opt].
    by rewrite (truthy_split_colon_1 _ _ _ Hs). }
  split; intros Hv.
  - rewrite Hw', (consume_valid _ _ _ _ _ Hs Hp Hv). cbn [fst snd].
    repeat split. rewrite (consume_not_found _ _ _ _ Hs); [done|]. apply lookup_delete_eq.
  - rewrite Hw'. pose proof (consume_mismatch _ _ _ _ _ Hs Hp Hv) as Hm.
    rewrite Hm. cbn [fst snd]. rewrite Hm. repeat split.
    rewrite callback_state_failure; rewrite ?He, ?Hq; cbn [truthy_opt str_opt];
      rewrite ?Hm, ?(truthy_split_colon_1 _ _ _ Hs); done.
Qed.

(** C2: the pair that [generate_state] issued, sent back as [login] put
    it in the URL, passes the state check ([Valid]) and is popped by that
    callback; a second callback with the same pair finds no entry
    ([NotFound]) and is answered with the security page. *)
Theorem issued_state_valid_exactly_once rnd tok now st cfg e code auth_code fs tr :
  let '(state_id, state_value, st1) := generate_state rnd tok now st in
  let state := login_state state_id state_value in
  let q := Query code auth_code (Some state) None None in
  let w1 := snd (callback' cfg e q (World st1 fs tr)) in
  consume st1 state = (Valid, delete state_id st1) /\
  states w1 = delete state_id st1 /\
  fst (consume (states w1) state) = NotFound /\
  fst (callback' cfg e q w1) = invalid_state_page (now_page e).
Proof.
  unfold generate_state.
  set (state_id := uuid_str (uuid4 rnd)). set (state_value := token_urlsafe tok).
  set (st1 := <[state_id := _]> st).
  assert (Hs : split_colon_1 (login_state state_id state_value) = [state_id; state_value])
    by apply split_colon_1_join, colon_free_uuid_str.
  assert (Hp : st1 !! state_id = Some (Pending state_value now)) by apply lookup_insert_eq.
  clearbody st1 state_id state_value.
  pose proof (truthy_login_state state_id state_value) as Ht.
  set (state := login_state state_id state_value) in *. clearbody state.
  assert (Hv : consume st1 state = (Valid, delete state_id st1))
    by exact (consume_valid _ _ _ _ _ Hs Hp eq_refl).
  assert (Hn : consume (delete state_id st1) state = (NotFound, delete state_id st1))
    by (apply (consume_not_found _ _ _ _ Hs), lookup_delete_eq).
  cbv zeta. rewrite callback_states. cbn [q_error q_state truthy_opt str_opt states].
  rewrite Ht, Hv. cbn [snd]. rewrite Hn. repeat split.
  set (w1 := snd _).
  assert (Hw1 : states w1 = delete state_id st1).
  { unfold w1. rewrite callback_states. cbn [q_error q_state truthy_opt str_opt states].
    by rewrite Ht, Hv. }
  clearbody w1.
  rewrite callback_state_failure; cbn [q_error q_state truthy_opt str_opt]; rewrite ?Hw1, ?Hn;
    done.
Qed.

(** C3, as the handler has it: an unknown state id and a wrong secret are
    answered with one and the same page (banner "Security validation
    failed"), whatever the state, the table and the cause; a state that
    is not of the shape id:secret is answered with another page (banner
    "Invalid state format"), and the two pages differ. *)
Theorem state_failure_pages cfg e q w :
  truthy_opt (q_error q) = false ->
  truthy_opt (q_state q) = true ->
  let v := fst (consume (states w) (str_opt (q_state q))) in
  let page := fst (callback' cfg e q w) in
  (v = NotFound \/ v = Mismatch -> page = invalid_state_page (now_page e)) /\
  (v = MalformedInput -> page = state_format_page (now_page e)) /\
  invalid_state_page (now_page e) <> state_format_page (now_page e).
Proof.
  intros H1 H2 v page. subst v page. repeat split.
  - intros Hv. rewrite callback_state_failure; [| done | done |].
    + by destruct Hv as [Hv|Hv]; rewrite Hv.
    + destruct Hv as [Hv|Hv]; rewrite Hv; discriminate.
  - intros Hv. rewrite callback_state_failure; [| done | done |].
    + by rewrite Hv.
    + rewrite Hv; discriminate.
  - apply invalid_state_page_not_format.
Qed.

(** C8: a callback whose state is missing, or whose state check ends in
    anything but [Valid] (malformed, unknown id, wrong secret), only adds
    events to the trace among which there is no token request. *)
Theorem no_exchange_without_valid_state cfg e q w :
  truthy_opt (q_state q) = false \/
    fst (consume (states w) (str_opt (q_state q))) <> Valid ->
  exists evs, trace (snd (callback' cfg e q w)) = trace w ++ evs /\ posts evs = [].
Proof.
  intros Hno.
  destruct (callback_effects json_dumps str_other cfg e q w)
    as (evs & Ht & [Hp | [(_ & H2 & Hv & _) _]]).
  - eauto.
  - destruct Hno; congruence.
Qed.

(** C10: a callback with a (non-empty) [error] parameter returns before
    the state check: the table and the files are as before, no token
    request is made, and every pending login is still there for a later
    callback, which, presenting its id and secret, passes the check and
    pops it. *)
Theorem provider_error_keeps_states cfg e q w :
  truthy_opt (q_error q) = true ->
  let w' := snd (callback' cfg e q w) in
  states w' = states w /\
  files w' = files w /\
  (exists evs, trace w' = trace w ++ evs /\ posts evs = []) /\
  (forall state_id p cfg' e' code auth_code,
      states w !! state_id = Some p -> colon_free state_id ->
      let state := login_state state_id (value p) in
      let q' := Query code auth_code (Some state) None None in
      fst (consume (states w') state) = Valid /\
      states (snd (callback' cfg' e' q' w')) = delete state_id (states w)).
Proof.
  intros He w'.
  assert (Hw' : states w' = states w).
  { unfold w'. by rewrite callback_provider_error. }
  repeat split; [done | by unfold w'; rewrite callback_provider_error | | |].
  - unfold w'. rewrite callback_provider_error by done. eexists. split; reflexivity.
  - rewrite Hw'.
    by rewrite (consume_valid _ _ state_id (value p) p); [| apply split_colon_1_join | |].
  - rewrite callback_states. cbn [q_error q_state truthy_opt str_opt].
    rewrite truthy_login_state, Hw'.
    by rewrite (consume_valid _ _ state_id (value p) p); [| apply split_colon_1_join | |].
Qed.
End StateCheck.

(** C1 fails on the handler: a callback with the id of the pending login
    and a wrong secret is a [Mismatch], the entry is still in the table
    afterwards, and a second callback with the same state is not
    [NotFound]. *)
Lemma mismatch_keeps_entry :
  fst (consume sample_states "abc-123:WRONG") = Mismatch /\
  states (snd (sample_callback sample_cfg (sample_env sample_ok None)
                 (sample_query "abc-123:WRONG") sample_world)) !! "abc-123"
    = Some (Pending "Xyz" sample_now) /\
  fst (consume (snd (consume sample_states "abc-123:WRONG")) "abc-123:WRONG") <> NotFound.
Proof. repeat split; [vm_compute; reflexivity ..|vm_compute; discriminate]. Qed.

(** The pending login of the samples: popped by the right secret, kept by
    a wrong one. *)
Lemma callback_removes_only_on_match_witness :
  states (snd (sample_callback sample_cfg (sample_env sample_ok None)
                 (sample_query "abc-123:Xyz") sample_world))
    = delete "abc-123" sample_states /\
  states (snd (sample_callback sample_cfg (sample_env sample_ok None)
                 (sample_query "abc-123:WRONG") sample_world))
    = sample_states.
Proof.
  split.
  - apply (callback_removes_only_on_match py_type_name py_type_name sample_cfg
             (sample_env sample_ok None) (sample_query "abc-123:Xyz") sample_world
             "abc-123:Xyz" "abc-123" "Xyz" (Pending "Xyz" sample_now));
      reflexivity.
  - apply (callback_removes_only_on_match py_type_name py_type_name sample_cfg
             (sample_env sample_ok None) (sample_query "abc-123:WRONG") sample_world
             "abc-123:WRONG" "abc-123" "WRONG" (Pending "Xyz" sample_now));
      [reflexivity | reflexivity | reflexivity | reflexivity | discriminate].
Defined.

(** C3 fails on the handler: a state without colon and a state with an
    unknown id are answered with different pages. *)
Lemma malformed_state_page_differs :
  fst (consume sample_states "abc-123") = MalformedInput /\
  fst (consume sample_states "zzz:Xyz") = NotFound /\
  fst (sample_callback sample_cfg (sample_env sample_ok None)
         (sample_query "abc-123") sample_world) <>
  fst (sample_callback sample_cfg (sample_env sample_ok None)
         (sample_query "zzz:Xyz") sample_world).
Proof.
  split; [reflexivity|]. split; [reflexivity|].
  apply String.eqb_neq. vm_compute. reflexivity.
Qed.

(** A wrong secret and a state without colon, on the samples. *)
Lemma state_failure_pages_witness :
  fst (sample_callback sample_cfg (sample_env sample_ok None)
         (sample_query "abc-123:WRONG") sample_world) = invalid_state_page sample_now /\
  fst (sample_callback sample_cfg (sample_env sample_ok None)
         (sample_query "abc-123") sample_world) = state_format_page sample_now.
Proof.
  split.
  - apply (state_failure_pages py_type_name py_type_name sample_cfg
             (sample_env sample_ok None) (sample_query "abc-123:WRONG") sample_world
             eq_refl eq_refl).
    right. reflexivity.
  - apply (state_failure_pages py_type_name py_type_name sample_cfg
             (sample_env sample_ok None) (sample_query "abc-123") sample_world
             eq_refl eq_refl).
    reflexivity.
Defined.

(** A wrong secret on the samples: no token request. *)
Lemma no_exchange_without_valid_state_witness :
  exists evs,
    trace (snd (sample_callback sample_cfg (sample_env sample_ok None)
                  (sample_query "abc-123:WRONG") sample_world)) = [] ++ evs /\
    posts evs = [].
Proof.
  apply (no_exchange_without_valid_state py_type_name py_type_name sample_cfg
           (sample_env sample_ok None) (sample_query "abc-123:WRONG") sample_world).
  right. vm_compute. discriminate.
Defined.

(** A refused login on the samples: the table is untouched. *)
Lemma provider_error_keeps_states_witness :
  states (snd (sample_callback sample_cfg (sample_env sample_ok None)
                 sample_denied sample_world)) = sample_states.
Proof.
  apply (provider_error_keeps_states py_type_name py_type_name sample_cfg
           (sample_env sample_ok None) sample_denied sample_world).
  reflexivity.
Defined.

(** ** The exchange of [callback] *)

Section TokenExchange.
Variables (json_dumps str_other : pyval -> string).

Abbreviation callback' := (callback json_dumps str_other).
Abbreviation exchange' := (exchange json_dumps str_other).
Abbreviation py_str' := (py_str str_other).

(** C7: the [appIdHash] of every token request a callback sends is the
    hex SHA-256 digest of the UTF-8 bytes of [APP_ID:SECRET_KEY], 64
    characters long, and any two requests made under the same
    configuration (in whatever runs) carry the same one. *)
Theorem checksum_is_sha256_hex cfg e1 q1 w1 e2 q2 w2 b1 b2 :
  b1 ∈ posts (new_events (trace w1) (trace (snd (callback' cfg e1 q1 w1)))) ->
  b2 ∈ posts (new_events (trace w2) (trace (snd (callback' cfg e2 q2 w2)))) ->
  (exists bs,
      utf8_encode (APP_ID cfg ++ pystr_of_string ":" ++ SECRET_KEY cfg) = inr bs /\
      appIdHash b1 = sha256_hexdigest bs) /\
  String.length (appIdHash b1) = 64%nat /\
  appIdHash b1 = appIdHash b2.
Proof.
  assert (Hsent : forall e q w b,
    b ∈ posts (new_events (trace w) (trace (snd (callback' cfg e q w)))) ->
    exists bs,
      utf8_encode (APP_ID cfg ++ pystr_of_string ":" ++ SECRET_KEY cfg) = inr bs /\
      appIdHash b = sha256_hexdigest bs).
  { intros e q w b Hb.
    destruct (callback_effects json_dumps str_other cfg e q w)
      as (evs & Ht & [Hp | (_ & h & Hh & Hp)]);
      rewrite Ht, new_events_app, Hp in Hb.
    - by apply elem_of_nil in Hb.
    - apply list_elem_of_singleton in Hb as ->. unfold app_id_hash in Hh.
      cbv zeta in Hh. destruct (utf8_encode _) as [ex|bs]; [done|].
      exists bs. split; [done|]. by injection Hh as <-. }
  intros (bs1 & E1 & H1)%Hsent (bs2 & E2 & H2)%Hsent.
  split; [eauto|]. split.
  - rewrite H1. apply length_sha256_hexdigest.
  - rewrite H1, H2. congruence.
Qed.

(** C5, as the handler has it: when the answer's body is a JSON object
    and the status is not 200 or the body's [s] is not ["ok"], the page is
    the API-error page, with the body's [message] when the key is there
    and the fixed fallback text when it is not. *)
Theorem rejected_answer_page cfg e q w r d :
  reaches_exchange q w ->
  answers cfg e q r ->
  response_json r = inr (PDict d) ->
  status_code r <> 200%Z \/ py_eq_str (default PNone (dict_lookup d "s")) "ok" = false ->
  let page := fst (callback' cfg e q w) in
  (forall m, dict_lookup d "message" = Some m ->
     page = api_error_page (now_page e) (py_str' m) (json_dumps (PDict d))) /\
  (dict_lookup d "message" = None ->
     page = api_error_page (now_page e) api_error_default (json_dumps (PDict d))).
Proof.
  intros Hr (h & Hh & Hcl & Hp) Hj Hno page. subst page.
  rewrite callback_exchange by done.
  rewrite (exchange_rejected _ _ _ _ _ _ _ _ Hh Hcl Hp _ Hj Hno). cbn [fst].
  split; [intros m Hm | intros Hm]; by rewrite Hm.
Qed.

(** C6: on status 200 with a JSON object whose [s] is ["ok"] and which has
    no [access_token], the exchange raises the [ValueError] of line 514;
    the page is the exception page with that text, no file is written,
    and the page is neither an API-error page nor a success page. *)
Theorem missing_token_is_malformed cfg e q w r d :
  reaches_exchange q w ->
  answers cfg e q r ->
  accepted r d ->
  dict_lookup d "access_token" = None ->
  let run := callback' cfg e q w in
  snd (exchange' cfg e (str_opt (actual_code q))
         (set_states (snd (consume (states w) (str_opt (q_state q)))) w))
    = inl (ValueError no_token_message) /\
  fst run = exception_page (now_page e) no_token_message /\
  files (snd run) = files w /\
  (forall now m details, fst run <> api_error_page now m details) /\
  (forall now tok details path, fst run <> success_page now tok details path).
Proof.
  intros Hr (h & Hh & Hcl & Hp) (Hs & Hj & Hok) Ht run. subst run.
  rewrite callback_exchange by done.
  rewrite (exchange_no_token _ _ _ _ _ _ _ _ Hh Hcl Hp _ Hj Hs Hok) by (by rewrite Ht).
  cbn [fst snd exchange_failed str_exn]. repeat split.
  - intros. apply exception_page_not_api_error.
  - intros. apply exception_page_not_success.
Qed.

(** C4, as the handler has it: after an accepted answer with a true
    [access_token], the token is on the page when the token file was
    written; when opening or writing the file fails, the page is the
    exception page carrying the text of that error, and not the page
    that shows the token. *)
Theorem persist_failure_page cfg e q w r d tok :
  reaches_exchange q w ->
  answers cfg e q r ->
  accepted r d ->
  dict_lookup d "access_token" = Some tok ->
  py_truthy tok = true ->
  let run := callback' cfg e q w in
  let path := token_path (now_stamp e) in
  (forall msg, open_w e path = Some msg ->
     fst run = exception_page (now_page e) msg /\
     (forall now tok' details path', fst run <> success_page now tok' details path')) /\
  (open_w e path = None ->
     contains (py_str' tok) (fst run) = true /\
     files (snd run) = <[path := json_dumps (PDict d)]> (files w)).
Proof.
  intros Hr (h & Hh & Hcl & Hp) (Hs & Hj & Hok) Ht Htrue run path. subst run path.
  rewrite callback_exchange by done. split.
  - intros msg Hw.
    rewrite (exchange_write_error _ _ _ _ _ _ _ _ Hh Hcl Hp _ Hj Hs Hok msg)
      by (by rewrite ?Ht).
    cbn [fst snd exchange_failed str_exn]. split; [done|].
    intros. apply exception_page_not_success.
  - intros Hw.
    rewrite (exchange_success _ _ _ _ _ _ _ _ Hh Hcl Hp _ Hj Hs Hok) by (by rewrite ?Ht).
    rewrite Ht. cbn [fst snd default files add_event put_file answered set_states].
    split; [apply success_page_shows_token | done].
Qed.

(** C9 on two logins completed within one second: both codes are
    exchanged and both answers are written to
    [token_20240102_030405.json]; after the first the directory holds the
    first answer, after the second it holds the second one alone. *)
Theorem same_second_overwrites :
  let path := "data/tokens/token_20240102_030405.json" in
  let w0 := World sample_two_states ∅ [] in
  let w1 := snd (callback' sample_cfg (sample_env sample_ok None)
                   (sample_query "abc-123:Xyz") w0) in
  let w2 := snd (callback' sample_cfg (sample_env sample_ok_2 None) sample_query_2 w1) in
  map code (posts (trace w2)) = ["AUTH1"; "AUTH2"] /\
  map_to_list (files w1) = [(path, json_dumps sample_body)] /\
  map_to_list (files w2) = [(path, json_dumps sample_body_2)].
Proof. vm_compute. split; [reflexivity | split; reflexivity]. Qed.
End TokenExchange.

(** The good callback of the samples enters the second [try]. *)
Lemma sample_reaches_exchange : reaches_exchange (sample_query "abc-123:Xyz") sample_world.
Proof. repeat split. Qed.

(** The provider of the samples answers that callback with what it was
    given to answer. *)
Lemma sample_answers r :
  answers sample_cfg (sample_env (inr r) None) (sample_query "abc-123:Xyz") r.
Proof. exists sample_hash. split; [vm_compute; reflexivity | split; reflexivity]. Qed.

(** The good answer of the samples is an accepted one. *)
Lemma sample_accepted : accepted (Response 200 (inr sample_body))
                          [("s", PStr "ok"); ("access_token", PStr "TOK1")].
Proof. repeat split. Qed.

(** The checksum of the samples, sent in two runs. *)
Lemma checksum_is_sha256_hex_witness :
  (exists bs,
      utf8_encode (pystr_of_string "APPID-100" ++ pystr_of_string ":" ++
                   pystr_of_string "SECRET") = inr bs /\
      sample_hash = sha256_hexdigest bs) /\
  String.length sample_hash = 64%nat /\
  sample_hash = sample_hash.
Proof.
  apply (checksum_is_sha256_hex py_type_name py_type_name sample_cfg
           (sample_env sample_ok None) (sample_query "abc-123:Xyz") sample_world
           (sample_env sample_rejected None) (sample_query "abc-123:Xyz") sample_world
           (token_request sample_hash "AUTH1") (token_request sample_hash "AUTH1")).
  - vm_compute. apply list_elem_of_here.
  - vm_compute. apply list_elem_of_here.
Defined.

(** C5 fails on the handler: a 502 whose body is no JSON is answered with
    the exception page carrying the decoder's text, which is no API-error
    page and does not hold the fallback message. *)
Lemma bad_gateway_not_rejected :
  let run := sample_callback sample_cfg (sample_env sample_bad_gateway None)
               (sample_query "abc-123:Xyz") sample_world in
  fst run = exception_page sample_now "Expecting value: line 1 column 1 (char 0)" /\
  contains api_error_default (fst run) = false /\
  (forall now m details, fst run <> api_error_page now m details).
Proof.
  cbv zeta.
  assert (H : fst (sample_callback sample_cfg (sample_env sample_bad_gateway None)
                     (sample_query "abc-123:Xyz") sample_world)
              = exception_page sample_now "Expecting value: line 1 column 1 (char 0)")
    by (vm_compute; reflexivity).
  split; [exact H|]. split; [vm_compute; reflexivity|].
  intros now m details. rewrite H. apply exception_page_not_api_error.
Qed.

(** A rejected code with a message, and a 500 with an empty object. *)
Lemma rejected_answer_page_witness :
  fst (sample_callback sample_cfg (sample_env sample_rejected None)
         (sample_query "abc-123:Xyz") sample_world)
    = api_error_page sample_now "invalid code" "dict" /\
  fst (sample_callback sample_cfg (sample_env (inr (Response 500 (inr (PDict [])))) None)
         (sample_query "abc-123:Xyz") sample_world)
    = api_error_page sample_now api_error_default "dict".
Proof.
  split.
  - destruct (rejected_answer_page py_type_name py_type_name sample_cfg
                (sample_env sample_rejected None) (sample_query "abc-123:Xyz") sample_world
                _ _ sample_reaches_exchange (sample_answers _) eq_refl
                (or_intror eq_refl)) as [Hmsg _].
    apply (Hmsg (PStr "invalid code")). reflexivity.
  - assert (Hstatus : 500%Z <> 200%Z) by lia.
    destruct (rejected_answer_page py_type_name py_type_name sample_cfg
                (sample_env (inr (Response 500 (inr (PDict [])))) None)
                (sample_query "abc-123:Xyz") sample_world
                _ _ sample_reaches_exchange (sample_answers _) eq_refl
                (or_introl Hstatus))
      as [_ Hdefault].
    apply Hdefault. reflexivity.
Defined.

(** An ok answer without token, on the samples. *)
Lemma missing_token_is_malformed_witness :
  fst (sample_callback sample_cfg (sample_env sample_no_token None)
         (sample_query "abc-123:Xyz") sample_world)
    = exception_page sample_now no_token_message.
Proof.
  apply (missing_token_is_malformed py_type_name py_type_name sample_cfg
           (sample_env sample_no_token None) (sample_query "abc-123:Xyz") sample_world
           (Response 200 (inr (PDict [("s", PStr "ok")]))) [("s", PStr "ok")]
           sample_reaches_exchange (sample_answers _)).
  - repeat split.
  - reflexivity.
Defined.

(** C4 fails on the handler: the provider returned [TOK1], the disk is
    full, and the page is the exception page, on which [TOK1] is not. *)
Lemma persist_failure_hides_token :
  let run := sample_callback sample_cfg (sample_env sample_ok (Some sample_disk_full))
               (sample_query "abc-123:Xyz") sample_world in
  fst run = exception_page sample_now sample_disk_full /\
  contains "TOK1" (fst run) = false.
Proof. vm_compute. split; reflexivity. Qed.

(** What that run leaves on the disk: the token file, opened and empty. *)
Example disk_full_leaves_empty_file :
  map_to_list
    (files (snd (sample_callback sample_cfg (sample_env sample_ok (Some sample_disk_full))
                   (sample_query "abc-123:Xyz") sample_world)))
    = [("data/tokens/token_20240102_030405.json"%string, EmptyString)].
Proof. vm_compute. reflexivity. Qed.

(** The full disk and the good run of the samples. *)
Lemma persist_failure_page_witness :
  fst (sample_callback sample_cfg (sample_env sample_ok (Some sample_disk_full))
         (sample_query "abc-123:Xyz") sample_world)
    = exception_page sample_now sample_disk_full /\
  contains "TOK1"
    (fst (sample_callback sample_cfg (sample_env sample_ok None)
            (sample_query "abc-123:Xyz") sample_world)) = true.
Proof.
  split.
  - apply (persist_failure_page py_type_name py_type_name sample_cfg
             (sample_env sample_ok (Some sample_disk_full))
             (sample_query "abc-123:Xyz") sample_world
             (Response 200 (inr sample_body)) _ (PStr "TOK1")
             sample_reaches_exchange
             (ex_intro _ sample_hash (conj eq_refl (conj eq_refl eq_refl)))
             sample_accepted eq_refl eq_refl).
    reflexivity.
  - apply (persist_failure_page py_type_name py_type_name sample_cfg
             (sample_env sample_ok None)
             (sample_query "abc-123:Xyz") sample_world
             (Response 200 (inr sample_body)) _ (PStr "TOK1")
             sample_reaches_exchange (sample_answers _)
             sample_accepted eq_refl eq_refl).
    reflexivity.
Defined.

(** * Further properties of the handlers *)

(** The second [try], opened up to its calls. *)
Ltac run_exchange :=
  unfold exchange, open_client, http_post, parse_json, write_file;
  unfold mbind, M_bind, mret, M_ret, lift, raise, emit, py_get.

(** ** Startup: the environment and the log line of [APP_ID] *)

Lemma env_truthy_Some o : env_truthy o = true -> exists v, o = Some v /\ v <> [].
Proof. destruct o as [[|c v]|]; try done. intros _. eauto. Qed.

(** X1: when the module loads, the client id, the secret and the redirect
    URI it hands to the handlers are all non-empty, and each is the value
    of its own variable or, for the first two, of the broker variable
    when its own is not set. *)
Theorem load_settings_nonempty (environ : gmap string pystr) s :
  load_settings environ = inr s ->
  APP_ID (s_config s) <> [] /\
  SECRET_KEY (s_config s) <> [] /\
  s_redirect_uri s <> [] /\
  environ !! "REDIRECT_URI" = Some (s_redirect_uri s) /\
  (environ !! "APP_ID" = Some (APP_ID (s_config s)) \/
   environ !! "APP_ID" = None /\ environ !! "BROKER_API_KEY" = Some (APP_ID (s_config s))) /\
  (environ !! "SECRET_KEY" = Some (SECRET_KEY (s_config s)) \/
   environ !! "SECRET_KEY" = None /\
   environ !! "BROKER_API_SECRET" = Some (SECRET_KEY (s_config s))).
Proof.
  unfold load_settings, getenv. cbv zeta.
  destruct (env_truthy (match environ !! "APP_ID" with Some v => Some v | None => _ end))
    eqn:Ha; [|done].
  destruct (env_truthy (match environ !! "SECRET_KEY" with Some v => Some v | None => _ end))
    eqn:Hs; [|done].
  destruct (env_truthy (match environ !! "REDIRECT_URI" with Some v => Some v | None => _ end))
    eqn:Hr; [|done].
  cbn [negb orb]. intros [= <-]. cbn [s_config s_redirect_uri APP_ID SECRET_KEY].
  apply env_truthy_Some in Ha as (a & Ea & Hna), Hs as (b & Eb & Hnb), Hr as (c & Ec & Hnc).
  rewrite Ea, Eb, Ec. cbn [default from_option id].
  repeat split; try done.
  - clear -Ec. destruct (environ !! "REDIRECT_URI"); by simplify_eq.
  - clear -Ea. destruct (environ !! "APP_ID"); [left; congruence | right].
    destruct (environ !! "BROKER_API_KEY"); by simplify_eq.
  - clear -Eb. destruct (environ !! "SECRET_KEY"); [left; congruence | right].
    destruct (environ !! "BROKER_API_SECRET"); by simplify_eq.
Qed.

(** X2: a variable that is set but empty is not replaced by its broker
    variable: with [APP_ID] or [SECRET_KEY] set to the empty string the
    module refuses to load, whatever [BROKER_API_KEY] and
    [BROKER_API_SECRET] hold. *)
Theorem empty_variable_has_no_stand_in (environ : gmap string pystr) :
  environ !! "APP_ID" = Some [] \/ environ !! "SECRET_KEY" = Some [] ->
  load_settings environ = inl missing_env_message.
Proof.
  unfold load_settings, getenv, pystr. cbv zeta. intros [-> | ->]; [done|].
  by destruct (env_truthy _).
Qed.

(** X3: the broker variables count only while the main ones are not set:
    once [APP_ID] and [SECRET_KEY] are set, the outcome of loading does
    not depend on [BROKER_API_KEY] and [BROKER_API_SECRET]. *)
Theorem main_variables_shadow_broker (environ : gmap string pystr) :
  is_Some (environ !! "APP_ID") -> is_Some (environ !! "SECRET_KEY") ->
  forall key secret,
    load_settings (<["BROKER_API_KEY" := key]> (<["BROKER_API_SECRET" := secret]> environ))
      = load_settings environ /\
    load_settings (delete "BROKER_API_KEY" (delete "BROKER_API_SECRET" environ))
      = load_settings environ.
Proof.
  intros [a Ha] [b Hb] key secret. unfold load_settings, getenv. cbv zeta.
  unfold pystr in *.
  rewrite !(lookup_insert_ne _ _ "APP_ID"), !(lookup_insert_ne _ _ "SECRET_KEY"),
    !(lookup_insert_ne _ _ "REDIRECT_URI"), !(lookup_delete_ne _ _ "APP_ID"),
    !(lookup_delete_ne _ _ "SECRET_KEY"), !(lookup_delete_ne _ _ "REDIRECT_URI") by done.
  by rewrite Ha, Hb.
Qed.

Lemma lookup_repeat {A} (x : A) n i : (i < n)%nat -> repeat x n !! i = Some x.
Proof.
  revert i. induction n as [|n IH]; intros [|i] Hi; try lia; [done|].
  cbn. apply IH. lia.
Qed.

(** X4: the client id in the start-up log is as long as the client id and
    shows its first five characters; every further one is a star. An id
    of five characters or fewer is logged as it is. *)
Theorem masked_app_id_shape (app_id : pystr) :
  length (masked_app_id app_id) = length app_id /\
  take 5 (masked_app_id app_id) = take 5 app_id /\
  (forall i, (5 <= i < length app_id)%nat -> masked_app_id app_id !! i = Some (N_of_ascii "*")) /\
  ((length app_id <= 5)%nat -> masked_app_id app_id = app_id).
Proof.
  unfold masked_app_id, pystr in *.
  destruct (Nat.ltb_spec 5 (length app_id)) as [Hlt|Hle].
  - repeat split.
    + rewrite length_app, length_take, repeat_length. lia.
    + rewrite take_app_le by (rewrite length_take; lia). by rewrite take_take.
    + intros i Hi. rewrite lookup_app_r by (rewrite length_take; lia).
      rewrite length_take. apply lookup_repeat. lia.
    + lia.
  - rewrite app_nil_r. assert (take 5 app_id = app_id) as -> by (apply take_ge; lia).
    repeat split; try done; [apply take_ge; lia | intros; lia].
Qed.

(** The environment of the samples loads as the settings of the samples. *)
Lemma load_settings_nonempty_witness :
  APP_ID (s_config sample_settings) <> [] /\
  SECRET_KEY (s_config sample_settings) <> [] /\
  s_redirect_uri sample_settings <> [].
Proof.
  destruct (load_settings_nonempty sample_environ sample_settings) as (H1 & H2 & H3 & _).
  - vm_compute. reflexivity.
  - exact (conj H1 (conj H2 H3)).
Defined.

(** An empty [APP_ID] beside a broker key. *)
Lemma empty_variable_has_no_stand_in_witness :
  load_settings sample_environ_empty_id = inl missing_env_message.
Proof.
  apply (empty_variable_has_no_stand_in sample_environ_empty_id).
  left. vm_compute. reflexivity.
Defined.

(** The broker variables added to the environment of the samples. *)
Lemma main_variables_shadow_broker_witness :
  load_settings (<["BROKER_API_KEY" := pystr_of_string "BROKER-1"]>
                   (<["BROKER_API_SECRET" := pystr_of_string "BROKER-2"]> sample_environ))
    = load_settings sample_environ.
Proof.
  refine (proj1 (main_variables_shadow_broker sample_environ _ _
                   (pystr_of_string "BROKER-1") (pystr_of_string "BROKER-2"))).
  - exists (pystr_of_string "APPID-100"). vm_compute. reflexivity.
  - exists (pystr_of_string "SECRET"). vm_compute. reflexivity.
Defined.

(** ** The state parameter of [login] *)

Lemma url_safe_cons c s : url_state_char c = true -> url_safe s -> url_safe (String c s).
Proof. intros Hc Hs. by constructor. Qed.

Lemma url_safe_app s t : url_safe s -> url_safe t -> url_safe (s +:+ t).
Proof.
  induction s as [|c s IH]; [done|].
  rewrite append_cons. intros Hs Ht. inversion_clear Hs.
  apply url_safe_cons; auto.
Qed.

Lemma url_safe_substring s : url_safe s -> forall n m, url_safe (substring n m s).
Proof.
  induction s as [|c s IH]; intros Hs n m.
  - destruct n, m; constructor.
  - inversion_clear Hs. destruct n as [|n]; simpl.
    + destruct m as [|m]; [constructor|]. apply url_safe_cons; auto.
    + auto.
Qed.

Lemma nth_url_state_char (l : list ascii) d n :
  forallb url_state_char l = true -> url_state_char d = true ->
  url_state_char (nth n l d) = true.
Proof.
  intros Hl Hd. destruct (nth_in_or_default n l d) as [Hin | ->]; [|done].
  rewrite forallb_forall in Hl. by apply Hl.
Qed.

Lemma hex_char_url_safe d : url_state_char (hex_char d) = true.
Proof. by apply nth_url_state_char. Qed.

Lemma b64_char_url_safe d : url_state_char (b64_char d) = true.
Proof. by apply nth_url_state_char. Qed.

Lemma url_safe_hex_digits k : forall n, url_safe (hex_digits k n).
Proof.
  induction k as [|k IH]; intros n; simpl; [constructor|].
  apply url_safe_app; [apply IH|].
  apply url_safe_cons; [apply hex_char_url_safe | constructor].
Qed.

Lemma url_safe_uuid_str u : url_safe (uuid_str u).
Proof.
  unfold uuid_str. cbv zeta.
  assert (Hd : url_safe "-") by (by apply url_safe_cons; [|constructor]).
  do 4 (apply url_safe_app; [apply url_safe_substring, url_safe_hex_digits |];
        apply url_safe_app; [exact Hd |]).
  apply url_safe_substring, url_safe_hex_digits.
Qed.

(** The encoder writes alphabet characters and then at most two [=]. *)
Lemma urlsafe_b64encode_shape bs :
  exists body pad, urlsafe_b64encode bs = body +:+ pad /\ url_safe body /\
    (pad = EmptyString \/ pad = "=" \/ pad = "==")%string.
Proof.
  assert (H : forall n (bs : list N), (length bs < n)%nat ->
    exists body pad, urlsafe_b64encode bs = body +:+ pad /\ url_safe body /\
      (pad = EmptyString \/ pad = "=" \/ pad = "==")%string).
  { clear bs. induction n as [|n IH]; intros bs Hn; [lia|].
    destruct bs as [|a [|b [|c rest]]].
    - exists EmptyString, EmptyString. repeat split; [constructor | by left].
    - eexists (String _ (String _ EmptyString)), "=="%string.
      split; [reflexivity|]. split; [|by right; right].
      repeat apply url_safe_cons; try apply b64_char_url_safe. constructor.
    - eexists (String _ (String _ (String _ EmptyString))), "="%string.
      split; [reflexivity|]. split; [|by right; left].
      repeat apply url_safe_cons; try apply b64_char_url_safe. constructor.
    - destruct (IH rest) as (body & pad & He & Hb & Hp); [simpl in Hn; lia|].
      exists (String (b64_char (N.shiftr a 2))
        (String (b64_char (N.lor (N.shiftl (N.land a 3) 4) (N.shiftr b 4)))
           (String (b64_char (N.lor (N.shiftl (N.land b 15) 2) (N.shiftr c 6)))
              (String (b64_char (N.land c 63)) body)))), pad.
      split; [|split; [|done]].
      + cbn [urlsafe_b64encode]. rewrite He. by rewrite !append_cons.
      + repeat apply url_safe_cons; try apply b64_char_url_safe. done. }
  apply (H (S (length bs))). lia.
Qed.

Lemma rstrip_eq_pad body pad :
  url_safe body -> (pad = EmptyString \/ pad = "=" \/ pad = "==")%string ->
  rstrip_eq (body +:+ pad) = body.
Proof.
  intros Hb Hp.
  assert (H0 : rstrip_eq pad = EmptyString) by (by destruct Hp as [->|[->| ->]]).
  induction body as [|c body IH]; [by rewrite append_nil_l|].
  inversion_clear Hb as [|? ? Hc Hb']. rewrite append_cons. cbn [rstrip_eq].
  rewrite IH by done. destruct body; [|done].
  destruct (Ascii.eqb_spec c "="%char) as [->|_]; [done|done].
Qed.

Lemma url_safe_token_urlsafe tok : url_safe (token_urlsafe tok).
Proof.
  unfold token_urlsafe.
  destruct (urlsafe_b64encode_shape tok) as (body & pad & -> & Hb & Hp).
  by rewrite rstrip_eq_pad.
Qed.

(** ** [quote] *)

Lemma utf8_encode_from_fails s : forall pos,
  (exists ex, utf8_encode_from pos s = inl ex) <-> Exists (fun c => is_surrogate c = true) s.
Proof.
  induction s as [|c s IH]; intros pos; cbn [utf8_encode_from].
  - split; [intros [ex ?]; done | by intros ?%Exists_nil].
  - destruct (is_surrogate c) eqn:Hc.
    + split; [intros _; by left | eauto].
    + rewrite Exists_cons. split.
      * intros [ex Hex]. right. apply (IH (S pos)).
        destruct (utf8_encode_from (S pos) s); [eauto | done].
      * intros [? | Hs]; [congruence|]. apply (IH (S pos)) in Hs as [ex Hex].
        rewrite Hex. eauto.
Qed.

Lemma utf8_encode_from_ok s :
  Forall (fun c => is_surrogate c = false) s ->
  forall pos, utf8_encode_from pos s = inr (flat_map utf8_encode_char s).
Proof.
  induction 1 as [|c s Hc _ IH]; intros pos; cbn [utf8_encode_from flat_map]; [done|].
  by rewrite Hc, IH.
Qed.

Lemma quote_ok s :
  Forall (fun c => is_surrogate c = false) s ->
  quote s = inr (flat_map quote_byte (flat_map utf8_encode_char s)).
Proof. intros H. unfold quote, utf8_encode. by rewrite utf8_encode_from_ok. Qed.

Lemma quote_app a b qa qb :
  quote a = inr qa -> quote b = inr qb -> quote (a ++ b) = inr (qa ++ qb).
Proof.
  assert (Hnone : forall s q, quote s = inr q -> Forall (fun c => is_surrogate c = false) s).
  { intros s q Hq. apply Forall_forall. intros c Hc.
    destruct (is_surrogate c) eqn:E; [|done]. exfalso.
    assert (Hex : Exists (fun c => is_surrogate c = true) s)
      by (apply Exists_exists; eauto).
    apply (utf8_encode_from_fails s 0) in Hex as [ex Hex].
    unfold quote, utf8_encode in Hq. by rewrite Hex in Hq. }
  intros Ha Hb. pose proof (Hnone _ _ Ha) as Fa. pose proof (Hnone _ _ Hb) as Fb.
  rewrite quote_ok in Ha, Hb by done. injection Ha as <-. injection Hb as <-.
  rewrite quote_ok by (by apply Forall_app). by rewrite !flat_map_app.
Qed.

(** A text of letters, digits, [-], [_] and [:] is left as it is. *)
Lemma quote_url_safe s : url_safe s -> quote (pystr_of_string s) = inr (pystr_of_string s).
Proof.
  assert (Hc : forall c, url_state_char c = true ->
            is_surrogate (N_of_ascii c) = false /\
            flat_map quote_byte (utf8_encode_char (N_of_ascii c)) = [N_of_ascii c]).
  { intros c. destruct c as [[] [] [] [] [] [] [] []]; vm_compute; intros; done. }
  intros Hs. rewrite quote_ok.
  - f_equal. unfold pystr_of_string. induction Hs as [|c l Hl _ IH]; [done|].
    cbn [map flat_map]. rewrite flat_map_app, IH. by destruct (Hc c Hl) as [_ ->].
  - unfold pystr_of_string. induction Hs as [|c l Hl _ IH]; constructor; [|done].
    by destruct (Hc c Hl).
Qed.

(** ** [login] *)

(** What [login] leaves behind once the state is generated, whether or
    not the redirect can be built. *)
Lemma login_store s rnd tok now_state now_page w :
  let w1 := snd (login s (inr (rnd, tok)) now_state now_page w) in
  states w1 = <[uuid_str (uuid4 rnd) := Pending (token_urlsafe tok) now_state]> (states w) /\
  files w1 = files w /\
  requests (new_events (trace w) (trace w1)) = [].
Proof.
  cbv zeta. unfold login, generate_state, login_failed.
  set (state_id := uuid_str (uuid4 rnd)). set (state_value := token_urlsafe tok).
  clearbody state_id state_value.
  destruct (quote _) as [ex|location];
    cbn [snd log add_event set_states states files trace];
    rewrite <- ?app_assoc, new_events_app; done.
Qed.

Lemma quote_auth_url s state_id state_value a u :
  quote (APP_ID (s_config s)) = inr a ->
  quote (s_redirect_uri s) = inr u ->
  url_safe (login_state state_id state_value) ->
  quote (auth_url s state_id state_value)
    = inr (pystr_of_string "https://api-t1.fyers.in/api/v3/generate-authcode?client_id="
           ++ a ++ pystr_of_string "&redirect_uri=" ++ u
           ++ pystr_of_string "&response_type=code&state="
           ++ pystr_of_string (login_state state_id state_value)).
Proof.
  intros Ha Hu Hs. unfold auth_url.
  set (state := pystr_of_string (login_state state_id state_value)).
  assert (Hq : quote state = inr state) by (by apply quote_url_safe).
  clearbody state.
  assert (Hlit : forall (lit : string) rest qrest,
    quote (pystr_of_string lit) = inr (pystr_of_string lit) ->
    quote rest = inr qrest ->
    quote (pystr_of_string lit ++ rest) = inr (pystr_of_string lit ++ qrest))
    by (intros; by apply quote_app).
  change (pystr_of_string "https://api-t1.fyers.in/api/v3/generate-authcode?client_id="
          ++ a ++ pystr_of_string "&redirect_uri=" ++ u
          ++ pystr_of_string "&response_type=code&state=" ++ state)
    with (pystr_of_string auth_base_url ++ pystr_of_string "?" ++
          pystr_of_string "client_id=" ++ a ++
          pystr_of_string "&" ++ pystr_of_string "redirect_uri=" ++ u ++
          pystr_of_string "&" ++ pystr_of_string "response_type=" ++ pystr_of_string "code" ++
          pystr_of_string "&" ++ pystr_of_string "state=" ++ state).
  do 3 (apply Hlit; [reflexivity|]). apply quote_app; [done|].
  do 2 (apply Hlit; [reflexivity|]). apply quote_app; [done|].
  do 5 (apply Hlit; [reflexivity|]). done.
Qed.

(** X5: [login] stores the state it generated and touches no file and
    sends no request, whether or not the redirect can be built. The state
    [id:secret] is made of letters, digits, [-], [_] and [:] only. When
    neither the client id nor the redirect URI holds a surrogate, the
    answer redirects to the provider's generate-authcode URL with the
    client id and the redirect URI as [quote] escapes them,
    [response_type=code] and, last, the state as it is. When one of them
    holds a surrogate, [RedirectResponse] raises and the answer is the
    error page with the text of the encoder. *)
Theorem login_redirect_url s rnd tok now_state now_page w :
  let r := login s (inr (rnd, tok)) now_state now_page w in
  exists state_id state_value,
    url_safe (state_id +:+ ":" +:+ state_value) /\
    split_colon_1 (state_id +:+ ":" +:+ state_value) = [state_id; state_value] /\
    states (snd r) = <[state_id := Pending state_value now_state]> (states w) /\
    files (snd r) = files w /\
    requests (new_events (trace w) (trace (snd r))) = [] /\
    (Forall (fun c => is_surrogate c = false) (APP_ID (s_config s) ++ s_redirect_uri s) ->
     exists a u,
       quote (APP_ID (s_config s)) = inr a /\ quote (s_redirect_uri s) = inr u /\
       fst r = inl (pystr_of_string
                      "https://api-t1.fyers.in/api/v3/generate-authcode?client_id="
                    ++ a ++ pystr_of_string "&redirect_uri=" ++ u
                    ++ pystr_of_string "&response_type=code&state="
                    ++ pystr_of_string (state_id +:+ ":" +:+ state_value))) /\
    (Exists (fun c => is_surrogate c = true) (APP_ID (s_config s) ++ s_redirect_uri s) ->
     exists ex,
       utf8_encode (auth_url s state_id state_value) = inl ex /\
       fst r = inr (get_base_html now_page "Error" (login_error_content (str_exn ex))
                      (Some "Failed to generate login URL") None)).
Proof.
  cbv zeta. destruct (login_store s rnd tok now_state now_page w) as (Hst & Hf & Hreq).
  exists (uuid_str (uuid4 rnd)), (token_urlsafe tok).
  split; [|split; [|split; [exact Hst|split; [exact Hf|split; [exact Hreq|]]]]].
  - apply url_safe_app; [apply url_safe_uuid_str|].
    apply url_safe_app; [|apply url_safe_token_urlsafe].
    by apply url_safe_cons; [|constructor].
  - apply split_colon_1_join, colon_free_uuid_str.
  - clear Hst Hf Hreq. unfold login, generate_state, login_failed.
    set (state_id := uuid_str (uuid4 rnd)).
    assert (Hid : url_safe state_id) by apply url_safe_uuid_str.
    set (state_value := token_urlsafe tok).
    assert (Hv : url_safe state_value) by apply url_safe_token_urlsafe.
    clearbody state_id state_value.
    assert (Hs : url_safe (login_state state_id state_value)).
    { apply url_safe_app; [done|]. apply url_safe_app; [|done].
      by apply url_safe_cons; [|constructor]. }
    split.
    + intros [Fa Fu]%Forall_app.
      exists (flat_map quote_byte (flat_map utf8_encode_char (APP_ID (s_config s)))),
             (flat_map quote_byte (flat_map utf8_encode_char (s_redirect_uri s))).
      rewrite (quote_auth_url s state_id state_value _ _ (quote_ok _ Fa) (quote_ok _ Fu) Hs).
      repeat split; by apply quote_ok.
    + intros Hex.
      assert (Hurl : Exists (fun c => is_surrogate c = true) (auth_url s state_id state_value)).
      { unfold auth_url. apply Exists_app in Hex as [Hex|Hex]; rewrite !Exists_app; tauto. }
      apply (utf8_encode_from_fails _ 0) in Hurl as [ex Hurl].
      exists ex. split; [exact Hurl|]. unfold quote, utf8_encode. by rewrite Hurl.
Qed.

(** A client id that is one lone surrogate: the state is stored, and the
    answer is the error page with the encoder's text, the position being
    that of the client id in the URL. *)
Example login_surrogate_client_id :
  let s := Settings (Config [0xdc80] (pystr_of_string "SECRET"))
             (pystr_of_string "http://localhost:8000/callback") in
  let r := login s (inr (1, [1])) sample_now sample_now sample_world in
  fst r = inr (get_base_html sample_now "Error"
                 (login_error_content
                    "'utf-8' codec can't encode character '\udc80' in position 59: surrogates not allowed")
                 (Some "Failed to generate login URL") None) /\
  is_Some (states (snd r) !! uuid_str (uuid4 1)).
Proof. vm_compute. split; [reflexivity | eauto]. Qed.

(** A redirect URI with a space and a query of its own. *)
Example login_escapes_redirect_uri :
  let s := Settings sample_cfg (pystr_of_string "http://localhost:8000/call back?x=1") in
  fst (login s (inr (1, [1])) sample_now sample_now sample_world)
    = inl (pystr_of_string
             ("https://api-t1.fyers.in/api/v3/generate-authcode?client_id=APPID-100" +:+
              "&redirect_uri=http://localhost:8000/call%20back?x=1" +:+
              "&response_type=code&state=00000000-0000-4000-8000-000000000001:AQ")).
Proof. vm_compute. reflexivity. Qed.

(** ** [login] and [callback] together *)

Section LoginCallback.
Variables (json_dumps str_other : pyval -> string).

Abbreviation callback' := (callback json_dumps str_other).
Abbreviation exchange' := (exchange json_dumps str_other).

(** X6: the callback that brings back the state of a [login] removes the
    entry that login stored, whatever becomes of the exchange: the table
    is the one from before the login without that id, and exactly the one
    from before the login when the id was new. *)
Theorem login_then_callback_restores_table s cfg e rnd tok now_state now_page
    code auth_code w :
  let w1 := snd (login s (inr (rnd, tok)) now_state now_page w) in
  let state_id := uuid_str (uuid4 rnd) in
  let q := Query code auth_code (Some (login_state state_id (token_urlsafe tok))) None None in
  let w2 := snd (callback' cfg e q w1) in
  fst (consume (states w1) (str_opt (q_state q))) = Valid /\
  states w2 = delete state_id (states w) /\
  (states w !! state_id = None -> states w2 = states w).
Proof.
  cbv zeta. rewrite callback_states.
  destruct (login_store s rnd tok now_state now_page w) as (-> & _).
  set (state_id := uuid_str (uuid4 rnd)). set (state_value := token_urlsafe tok).
  assert (Hs : split_colon_1 (login_state state_id state_value) = [state_id; state_value])
    by apply split_colon_1_join, colon_free_uuid_str.
  pose proof (truthy_login_state state_id state_value) as Ht.
  clearbody state_id state_value.
  set (state := login_state state_id state_value) in *. clearbody state.
  cbn [q_error q_state truthy_opt str_opt].
  rewrite Ht.
  rewrite (consume_valid _ _ state_id state_value (Pending state_value now_state) Hs);
    [|apply lookup_insert_eq|done].
  cbn [fst snd]. rewrite delete_insert_eq.
  repeat split. intros Hn. by apply delete_id.
Qed.

Lemma consume_other st state state_id secret k :
  split_colon_1 state = [state_id; secret] -> k <> state_id ->
  snd (consume st state) !! k = st !! k.
Proof.
  intros Hs Hk. unfold consume. rewrite Hs.
  destruct (st !! state_id) as [p|]; [|done].
  destruct (bool_decide _); [|done]. cbn [snd]. by rewrite lookup_delete_ne.
Qed.

(** X7: two logins whose ids differ do not disturb each other: with both
    pending, either state passes the check, and it still passes after the
    callback of the other one has run. *)
Theorem two_logins_complete_in_any_order s cfg e rnd1 tok1 rnd2 tok2 now1 now2 now_page
    code auth_code w :
  uuid_str (uuid4 rnd1) <> uuid_str (uuid4 rnd2) ->
  let w1 := snd (login s (inr (rnd1, tok1)) now1 now_page w) in
  let w2 := snd (login s (inr (rnd2, tok2)) now2 now_page w1) in
  let state1 := login_state (uuid_str (uuid4 rnd1)) (token_urlsafe tok1) in
  let state2 := login_state (uuid_str (uuid4 rnd2)) (token_urlsafe tok2) in
  let q1 := Query code auth_code (Some state1) None None in
  let q2 := Query code auth_code (Some state2) None None in
  fst (consume (states w2) state1) = Valid /\
  fst (consume (states w2) state2) = Valid /\
  fst (consume (states (snd (callback' cfg e q2 w2))) state1) = Valid /\
  fst (consume (states (snd (callback' cfg e q1 w2))) state2) = Valid.
Proof.
  cbv zeta. rewrite !callback_states.
  destruct (login_store s rnd2 tok2 now2 now_page
              (snd (login s (inr (rnd1, tok1)) now1 now_page w))) as (-> & _).
  destruct (login_store s rnd1 tok1 now1 now_page w) as (-> & _).
  set (id1 := uuid_str (uuid4 rnd1)). set (id2 := uuid_str (uuid4 rnd2)).
  set (v1 := token_urlsafe tok1). set (v2 := token_urlsafe tok2).
  assert (Hs1 : split_colon_1 (login_state id1 v1) = [id1; v1])
    by apply split_colon_1_join, colon_free_uuid_str.
  assert (Hs2 : split_colon_1 (login_state id2 v2) = [id2; v2])
    by apply split_colon_1_join, colon_free_uuid_str.
  pose proof (truthy_login_state id1 v1) as Ht1.
  pose proof (truthy_login_state id2 v2) as Ht2.
  clearbody id1 id2 v1 v2. intros Hne.
  set (state1 := login_state id1 v1) in *. set (state2 := login_state id2 v2) in *.
  clearbody state1 state2.
  set (st2 := <[id2 := Pending v2 now2]> (<[id1 := Pending v1 now1]> (states w))).
  assert (Hp1 : st2 !! id1 = Some (Pending v1 now1)).
  { unfold st2. rewrite lookup_insert_ne by done. apply lookup_insert_eq. }
  assert (Hp2 : st2 !! id2 = Some (Pending v2 now2)) by apply lookup_insert_eq.
  clearbody st2.
  cbn [q_error q_state truthy_opt str_opt].
  rewrite Ht1, Ht2.
  rewrite (consume_valid _ _ _ _ _ Hs1 Hp1 eq_refl), (consume_valid _ _ _ _ _ Hs2 Hp2 eq_refl).
  cbn [fst snd]. repeat split.
  - rewrite (consume_valid _ _ _ _ (Pending v1 now1) Hs1); [done| |done].
    by rewrite lookup_delete_ne.
  - rewrite (consume_valid _ _ _ _ (Pending v2 now2) Hs2); [done| |done].
    by rewrite lookup_delete_ne.
Qed.

(** The check of a state reads the stored secret only. *)
Lemma consume_same_values (st1 st2 : gmap string pending) state :
  value <$> st1 = value <$> st2 ->
  fst (consume st1 state) = fst (consume st2 state) /\
  value <$> snd (consume st1 state) = value <$> snd (consume st2 state).
Proof.
  intros H. unfold consume.
  destruct (split_colon_1 state) as [|state_id [|secret [|? ?]]]; try done.
  assert (Hl : value <$> st1 !! state_id = value <$> st2 !! state_id)
    by (rewrite <- (lookup_fmap value st1), <- (lookup_fmap value st2); by rewrite H).
  destruct (st1 !! state_id) as [p1|], (st2 !! state_id) as [p2|]; simplify_eq/=; [|done].
  rewrite Hl. destruct (bool_decide _); [|done]. cbn [fst snd].
  by rewrite !fmap_delete, H.
Qed.

(** The second [try] reads nothing of the table. *)
Lemma exchange_same_values cfg e c w1 w2 :
  files w1 = files w2 -> trace w1 = trace w2 ->
  let r1 := exchange' cfg e c w1 in
  let r2 := exchange' cfg e c w2 in
  snd r1 = snd r2 /\ files (fst r1) = files (fst r2) /\ trace (fst r1) = trace (fst r2).
Proof.
  destruct w1 as [st1 fs1 tr1], w2 as [st2 fs2 tr2]. cbn [files trace]. intros <- <-.
  run_exchange.
  destruct (app_id_hash cfg) as [ex|h]; simpl; [done|].
  destruct (client_error e) as [msg|]; simpl; [done|].
  destruct (post e _ _ _) as [msg|r]; [done|].
  destruct (response_json r) as [msg|v]; [done|].
  destruct (status_code r =? 200)%Z.
  - destruct v as [| | | | |l|d]; try done.
    destruct (py_eq_str _ _); [|done].
    destruct (py_truthy _); [|done].
    destruct (open_w e _); [destruct (kept_w e _)|]; done.
  - destruct v as [| | | | |l|d]; done.
Qed.

(** X8: a pending state never expires. The time stored with it is not
    read: on two stores that differ only in the [created_at] of their
    pending states, a callback returns the same page, writes the same
    files and logs the same lines, and leaves stores that again differ in
    [created_at] only. *)
Theorem pending_state_never_expires cfg e q w1 w2 :
  value <$> states w1 = value <$> states w2 ->
  files w1 = files w2 -> trace w1 = trace w2 ->
  let r1 := callback json_dumps str_other cfg e q w1 in
  let r2 := callback json_dumps str_other cfg e q w2 in
  fst r1 = fst r2 /\
  value <$> states (snd r1) = value <$> states (snd r2) /\
  files (snd r1) = files (snd r2) /\
  trace (snd r1) = trace (snd r2).
Proof.
  intros Hst Hf Ht. cbv zeta.
  destruct (consume_same_values _ _ (str_opt (q_state q)) Hst) as [Hv Hs].
  destruct (truthy_opt (q_error q)) eqn:H1.
  { rewrite !callback_provider_error by done. cbn [fst snd log add_event states files trace].
    by rewrite Ht. }
  destruct (truthy_opt (q_state q)) eqn:H2; cycle 1.
  { rewrite !callback_missing_state by done. cbn [fst snd log add_event states files trace].
    by rewrite Ht. }
  destruct (decide (fst (consume (states w1) (str_opt (q_state q))) = Valid)) as [Hv1|Hv1];
    cycle 1.
  { assert (Hv2 : fst (consume (states w2) (str_opt (q_state q))) <> Valid) by congruence.
    rewrite !callback_state_failure by done.
    pose proof (consume_keeps_unless_valid _ _ Hv1) as Hk1.
    pose proof (consume_keeps_unless_valid _ _ Hv2) as Hk2.
    rewrite <- Hv.
    destruct (fst (consume (states w1) _)); cbn [fst snd log add_event states files trace];
      by rewrite Ht. }
  assert (Hv2 : fst (consume (states w2) (str_opt (q_state q))) = Valid) by congruence.
  destruct (truthy_opt (actual_code q)) eqn:Hc; cycle 1.
  { rewrite !callback_missing_code by done.
    cbn [fst snd log add_event set_states states files trace]. by rewrite Ht. }
  rewrite !callback_exchange by done.
  set (a1 := set_states (snd (consume (states w1) (str_opt (q_state q)))) w1).
  set (a2 := set_states (snd (consume (states w2) (str_opt (q_state q)))) w2).
  destruct (exchange_same_values cfg e (str_opt (actual_code q)) a1 a2) as (Hr & Hxf & Hxt);
    [done|done|].
  pose proof (exchange_effects json_dumps str_other cfg e (str_opt (actual_code q)) a1) as [Hx1 _].
  pose proof (exchange_effects json_dumps str_other cfg e (str_opt (actual_code q)) a2) as [Hx2 _].
  cbv zeta in *.
  destruct (exchange _ _ _ _ _ a1) as [x1 o1], (exchange _ _ _ _ _ a2) as [x2 o2].
  cbn [fst snd] in *. subst o2.
  destruct o1 as [ex|page]; unfold exchange_failed;
    cbn [fst snd log add_event states files trace]; rewrite Hx1, Hx2, Hxt; done.
Qed.

End LoginCallback.

(** Two logins drawn from the random numbers 1 and 2. *)
Lemma two_logins_complete_in_any_order_witness :
  fst (consume
         (states (snd (login sample_settings (inr (2, [2])) sample_now sample_now
                         (snd (login sample_settings (inr (1, [1])) sample_now sample_now
                                 sample_world)))))
         (login_state (uuid_str (uuid4 1)) (token_urlsafe [1]))) = Valid.
Proof.
  apply (two_logins_complete_in_any_order py_type_name py_type_name sample_settings
           sample_cfg (sample_env sample_ok None) 1 [1] 2 [2] sample_now sample_now
           sample_now (Some "AUTH1"%string) None sample_world).
  intros H. vm_compute in H. discriminate H.
Defined.

(** The pending login of the samples, stored now and a year ago. *)
Lemma pending_state_never_expires_witness :
  fst (sample_callback sample_cfg (sample_env sample_ok None)
         (sample_query "abc-123:Xyz") sample_world)
  = fst (sample_callback sample_cfg (sample_env sample_ok None)
           (sample_query "abc-123:Xyz") sample_old_world).
Proof.
  apply (pending_state_never_expires py_type_name py_type_name sample_cfg
           (sample_env sample_ok None) (sample_query "abc-123:Xyz")
           sample_world sample_old_world).
  - vm_compute. reflexivity.
  - reflexivity.
  - reflexivity.
Defined.

(** ** More on [callback] *)

Lemma requests_app (a b : list event) : requests (a ++ b) = requests a ++ requests b.
Proof. unfold requests. apply List.filter_app. Qed.

Section CallbackMore.
Variables (json_dumps str_other : pyval -> string).

Abbreviation callback' := (callback json_dumps str_other).
Abbreviation exchange' := (exchange json_dumps str_other).

Ltac finish_run :=
  cbn [fst snd states trace files add_event put_file negb];
  rewrite <- ?app_assoc; eauto 10.

(** What the second [try] leaves behind, whatever the provider does. *)
Lemma exchange_frame cfg e c w :
  let w' := fst (exchange' cfg e c w) in
  (files w' = files w \/
   exists text, files w' = <[token_path (now_stamp e) := text]> (files w)) /\
  exists evs, trace w' = trace w ++ evs /\
    requests evs = match app_id_hash cfg, client_error e with
                   | inr h, None => [HttpPost token_url token_headers (token_request h c)]
                   | _, _ => []
                   end.
Proof.
  run_exchange.
  destruct (app_id_hash cfg) as [ex|h]; simpl.
  { split; [by left|]. exists []. rewrite app_nil_r. eauto. }
  destruct (client_error e) as [msg|]; simpl.
  { split; [by left|]. exists []. rewrite app_nil_r. eauto. }
  destruct (post e _ _ _) as [msg|r]; [finish_run|].
  destruct (response_json r) as [msg|v]; [finish_run|].
  destruct (status_code r =? 200)%Z.
  - destruct v as [| | | | |l|d]; try finish_run.
    destruct (py_eq_str _ _).
    + destruct (py_truthy _); [|finish_run].
      destruct (open_w e _); [destruct (kept_w e _)|]; finish_run.
    + finish_run.
  - destruct v as [| | | | |l|d]; finish_run.
Qed.

(** The files and the requests of a run of [callback]. *)
Lemma callback_frame cfg e q w :
  let w' := snd (callback' cfg e q w) in
  (files w' = files w \/
   exists text, files w' = <[token_path (now_stamp e) := text]> (files w)) /\
  exists evs, trace w' = trace w ++ evs /\
    (reaches_exchange q w ->
     requests evs =
       match app_id_hash cfg, client_error e with
       | inr h, None =>
           [HttpPost token_url token_headers (token_request h (str_opt (actual_code q)))]
       | _, _ => []
       end) /\
    (~ reaches_exchange q w -> requests evs = []).
Proof.
  assert (Hnone : forall page w1 ev,
    callback' cfg e q w = (page, log "ERROR" ev w1) -> files w1 = files w ->
    trace w1 = trace w -> ~ reaches_exchange q w ->
    let w' := snd (callback' cfg e q w) in
    (files w' = files w \/
     exists text, files w' = <[token_path (now_stamp e) := text]> (files w)) /\
    exists evs, trace w' = trace w ++ evs /\
      (reaches_exchange q w ->
       requests evs =
         match app_id_hash cfg, client_error e with
         | inr h, None =>
             [HttpPost token_url token_headers (token_request h (str_opt (actual_code q)))]
         | _, _ => []
         end) /\
      (~ reaches_exchange q w -> requests evs = [])).
  { intros page w1 ev -> Hf Ht Hn. cbn [snd log add_event files trace]. split; [by left|].
    rewrite Ht. eexists. split; [reflexivity|]. split; [done|]. done. }
  destruct (truthy_opt (q_error q)) eqn:H1.
  { eapply Hnone; [by apply callback_provider_error|done|done|].
    intros (? & _). congruence. }
  destruct (truthy_opt (q_state q)) eqn:H2; cycle 1.
  { eapply Hnone; [by apply callback_missing_state|done|done|].
    intros (_ & ? & _). congruence. }
  destruct (decide (fst (consume (states w) (str_opt (q_state q))) = Valid)) as [Hv|Hv]; cycle 1.
  { assert (Hn : ~ reaches_exchange q w) by (intros (_ & _ & ? & _); done).
    pose proof (callback_state_failure json_dumps str_other cfg e q w H1 H2 Hv) as Hc.
    destruct (fst (consume _ _)); eapply Hnone; done. }
  destruct (truthy_opt (actual_code q)) eqn:Hc; cycle 1.
  { eapply Hnone; [by apply callback_missing_code|done|done|].
    intros (_ & _ & _ & ?). congruence. }
  assert (Hr : reaches_exchange q w) by done.
  rewrite callback_exchange by done.
  pose proof (exchange_frame cfg e (str_opt (actual_code q))
                (set_states (snd (consume (states w) (str_opt (q_state q)))) w)) as Hx.
  cbv zeta in Hx. destruct Hx as (Hf & evs & Ht & Hp).
  destruct (exchange _ _ _ _ _ _) as [w' [ex|page]]; cbn [fst snd] in *.
  - split; [exact Hf|].
    exists (evs ++ [Log "ERROR" ("Error generating access token: " +:+ str_exn ex)]).
    unfold exchange_failed, log, add_event. cbn [snd trace]. rewrite Ht.
    cbn [set_states trace]. split; [by rewrite app_assoc|].
    rewrite requests_app, app_nil_r. done.
  - split; [exact Hf|]. exists evs. done.
Qed.

(** X9: a callback sends at most one token request, and any it sends is a
    POST of [grant_type=authorization_code] with the callback's code to the
    validate-authcode URL, with the JSON content type; nothing is sent
    twice, whatever the provider or the disk do. *)
Theorem at_most_one_request cfg e q w :
  exists evs,
    trace (snd (callback' cfg e q w)) = trace w ++ evs /\
    (length (requests evs) <= 1)%nat /\
    forall ev, ev ∈ requests evs ->
      exists h, ev = HttpPost "https://api-t1.fyers.in/api/v3/validate-authcode"
                       [("Content-Type", "application/json")]
                       (Payload "authorization_code" h (str_opt (actual_code q))).
Proof.
  destruct (callback_frame cfg e q w) as (_ & evs & Ht & Hyes & Hno).
  exists evs. split; [done|].
  destruct (decide (fst (consume (states w) (str_opt (q_state q))) = Valid)) as [Hv|Hv];
    [destruct (truthy_opt (q_error q)) eqn:H1, (truthy_opt (q_state q)) eqn:H2,
       (truthy_opt (actual_code q)) eqn:H3|].
  all: try (rewrite Hno; [split; [simpl; lia | by intros ev ?%elem_of_nil]|];
            unfold reaches_exchange; intros (? & ? & ? & ?); congruence).
  rewrite Hyes by done. destruct (app_id_hash cfg) as [ex|h], (client_error e) as [msg|].
  1-3: split; [simpl; lia | by intros ev ?%elem_of_nil].
  split; [simpl; lia|]. intros ev ->%list_elem_of_singleton. by exists h.
Qed.

Lemma exchange_encode_error cfg e c w ex :
  app_id_hash cfg = inl ex -> exchange' cfg e c w = (w, inl ex).
Proof. intros H. run_exchange. by rewrite H. Qed.

Lemma exchange_client_error cfg e c w h msg :
  app_id_hash cfg = inr h -> client_error e = Some msg ->
  exchange' cfg e c w = (w, inl (LibraryError msg)).
Proof. intros Hh Hc. run_exchange. by rewrite Hh, Hc. Qed.

(** X10: of a callback that reaches the exchange with a checksum. When
    the HTTP client is built, exactly one token request is sent, and its
    code is [auth_code] when that is there and not empty, and [code]
    otherwise. When building the client raises, no request is sent and
    no file written, and the page is the exception page with the text of
    that error. *)
Theorem auth_code_is_preferred cfg e q w h :
  reaches_exchange q w ->
  app_id_hash cfg = inr h ->
  (client_error e = None ->
   exists evs b,
     trace (snd (callback' cfg e q w)) = trace w ++ evs /\
     posts evs = [b] /\
     appIdHash b = h /\
     (truthy_opt (q_auth_code q) = true -> Some (code b) = q_auth_code q) /\
     (truthy_opt (q_auth_code q) = false -> Some (code b) = q_code q)) /\
  (forall msg, client_error e = Some msg ->
     fst (callback' cfg e q w) = exception_page (now_page e) msg /\
     files (snd (callback' cfg e q w)) = files w /\
     posts (new_events (trace w) (trace (snd (callback' cfg e q w)))) = []).
Proof.
  intros Hr Hh. split.
  - intros Hcl.
    destruct (callback_effects json_dumps str_other cfg e q w)
      as (evs & Ht & Hp).
    pose proof (callback_frame cfg e q w) as (_ & evs' & Ht' & Hyes & _).
    assert (evs' = evs) as -> by (rewrite Ht in Ht'; by apply app_inv_head in Ht').
    specialize (Hyes Hr). rewrite Hh, Hcl in Hyes.
    assert (Hposts : posts evs = [token_request h (str_opt (actual_code q))]).
    { destruct Hp as [Hp | (_ & h' & Hh' & Hp)].
      - exfalso. clear -Hp Hyes. induction evs as [|[] evs IH]; simpl in *; try done.
        all: cbn [requests List.filter] in Hyes; try discriminate; by apply IH.
      - rewrite Hp. congruence. }
    exists evs, (token_request h (str_opt (actual_code q))).
    repeat split; try done.
    + intros Ha. cbn [code token_request]. unfold actual_code. rewrite Ha.
      destruct (q_auth_code q); [done|discriminate].
    + intros Ha. cbn [code token_request]. unfold actual_code. rewrite Ha.
      destruct Hr as (_ & _ & _ & Hc). unfold actual_code in Hc. rewrite Ha in Hc.
      destruct (q_code q); [done|discriminate].
  - intros msg Hcl. rewrite callback_exchange by done.
    rewrite (exchange_client_error _ _ _ _ _ _ Hh Hcl).
    unfold exchange_failed, log, add_event, set_states, new_events.
    cbn [fst snd states files trace str_exn]. rewrite drop_app_length. done.
Qed.

Lemma exchange_transport_error cfg e c w h msg :
  app_id_hash cfg = inr h ->
  client_error e = None ->
  post e token_url token_headers (token_request h c) = inl msg ->
  exchange' cfg e c w =
    (add_event (HttpPost token_url token_headers (token_request h c)) w,
     inl (LibraryError msg)).
Proof. intros Hh Hcl Hp. run_exchange. by rewrite Hh, Hcl, Hp. Qed.

Lemma exchange_not_object cfg e c w h r v :
  app_id_hash cfg = inr h ->
  client_error e = None ->
  post e token_url token_headers (token_request h c) = inr r ->
  response_json r = inr v ->
  (forall d, v <> PDict d) ->
  exchange' cfg e c w =
    (answered (token_request h c) (status_code r) w,
     inl (AttributeError ("'" +:+ py_type_name v +:+ "' object has no attribute 'get'"))).
Proof.
  intros Hh Hcl Hp Hj Hv. run_exchange. unfold answered. rewrite Hh, Hcl, Hp, Hj.
  destruct (status_code r =? 200)%Z; destruct v; try done; by destruct (Hv d).
Qed.

(** X11: a callback with a valid state and no code (neither [auth_code] nor
    [code], or both empty) is answered with the missing-code page and
    sends nothing, yet its state is spent: the entry is popped, and a
    later callback with the same state, code or not, gets the security
    page. *)
Theorem missing_code_spends_state cfg e q w state state_id p :
  truthy_opt (q_error q) = false ->
  q_state q = Some state ->
  split_colon_1 state = [state_id; value p] ->
  states w !! state_id = Some p ->
  truthy_opt (actual_code q) = false ->
  let w' := snd (callback' cfg e q w) in
  fst (callback' cfg e q w) = missing_code_page (now_page e) /\
  states w' = delete state_id (states w) /\
  files w' = files w /\
  (exists evs, trace w' = trace w ++ evs /\ requests evs = []) /\
  (forall cfg' e' q',
      truthy_opt (q_error q') = false -> q_state q' = Some state ->
      fst (callback' cfg' e' q' w') = invalid_state_page (now_page e')).
Proof.
  intros He Hq Hs Hp Hc w'.
  assert (Ht : truthy_opt (q_state q) = true)
    by (rewrite Hq; exact (truthy_split_colon_1 _ _ _ Hs)).
  assert (Hv : consume (states w) state = (Valid, delete state_id (states w)))
    by exact (consume_valid _ _ _ _ _ Hs Hp eq_refl).
  assert (Hrun : callback' cfg e q w =
                 (missing_code_page (now_page e),
                  log "ERROR" "Missing authorization code in callback"
                    (set_states (delete state_id (states w)) w))).
  { rewrite callback_missing_code; rewrite ?Hq; cbn [str_opt]; rewrite ?Hv; try done.
    exact (truthy_split_colon_1 _ _ _ Hs). }
  subst w'. rewrite Hrun. cbn [fst snd log add_event set_states states files trace].
  repeat split.
  - eexists. split; reflexivity.
  - intros cfg' e' q' He' Hq'.
    rewrite callback_state_failure; rewrite ?He', ?Hq';
      cbn [truthy_opt str_opt states]; rewrite ?(truthy_split_colon_1 _ _ _ Hs);
      rewrite ?(consume_not_found _ _ _ _ Hs) by apply lookup_delete_eq; done.
Qed.

(** X12: a callback never adds an entry to the table of pending logins and
    never changes one; the only entry it can remove is the one whose id
    and stored secret its [state] parameter carries. *)
Theorem callback_keeps_other_states cfg e q w :
  let w' := snd (callback' cfg e q w) in
  (forall state_id p, states w' !! state_id = Some p -> states w !! state_id = Some p) /\
  (forall state_id p,
      states w !! state_id = Some p -> states w' !! state_id = None ->
      truthy_opt (q_error q) = false /\
      split_colon_1 (str_opt (q_state q)) = [state_id; value p]).
Proof.
  intros w'. subst w'. rewrite callback_states.
  assert (Hcons : forall st state,
    (forall i p, snd (consume st state) !! i = Some p -> st !! i = Some p) /\
    (forall i p, st !! i = Some p -> snd (consume st state) !! i = None ->
                 split_colon_1 state = [i; value p])).
  { intros st state. unfold consume.
    destruct (split_colon_1 state) as [|a [|b [|c rest]]] eqn:Hs;
      try (cbn [snd]; split; intros; congruence).
    destruct (st !! a) as [pa|] eqn:Ha; [|cbn [snd]; split; intros; congruence].
    case_bool_decide as Hb; cbn [snd]; [|split; intros; congruence].
    split.
    - intros i p [_ ?]%lookup_delete_Some. done.
    - intros i p Hi Hd. destruct (decide (a = i)) as [->|Hne].
      + rewrite Ha in Hi. injection Hi as ->. by rewrite Hb.
      + rewrite lookup_delete_ne in Hd by done. congruence. }
  destruct (truthy_opt (q_error q)); [split; intros; congruence|].
  destruct (truthy_opt (q_state q)); [|split; intros; congruence].
  destruct (Hcons (states w) (str_opt (q_state q))) as [H1 H2].
  split; [exact H1|]. intros i p Hi Hd. split; [done|]. eauto.
Qed.

(** X13: the only file a callback can write is the token file of its own
    second; every other file is left as it is, and no file is ever
    removed. *)
Theorem callback_keeps_other_files cfg e q w :
  let w' := snd (callback' cfg e q w) in
  (forall path, path <> token_path (now_stamp e) -> files w' !! path = files w !! path) /\
  (forall path, is_Some (files w !! path) -> is_Some (files w' !! path)).
Proof.
  intros w'. destruct (callback_frame cfg e q w) as ([Hf | [d Hf]] & _); fold w' in Hf.
  - rewrite Hf. done.
  - rewrite Hf. split.
    + intros path Hne. by rewrite lookup_insert_ne.
    + intros path Hs. destruct (decide (token_path (now_stamp e) = path)) as [<-|Hne].
      * rewrite lookup_insert_eq. eauto.
      * by rewrite lookup_insert_ne.
Qed.

(** X14: when the token request cannot be delivered (the HTTP client,
    once built, raises while sending), the page is the exception page
    with the client's text; the state is already spent, the request was
    tried once, and no file is written. *)
Theorem transport_error_page cfg e q w h msg :
  reaches_exchange q w ->
  app_id_hash cfg = inr h ->
  client_error e = None ->
  post e token_url token_headers (token_request h (str_opt (actual_code q))) = inl msg ->
  let w' := snd (callback' cfg e q w) in
  fst (callback' cfg e q w) = exception_page (now_page e) msg /\
  states w' = snd (consume (states w) (str_opt (q_state q))) /\
  files w' = files w /\
  posts (new_events (trace w) (trace w')) = [token_request h (str_opt (actual_code q))].
Proof.
  intros Hr Hh Hcl Hp w'. subst w'. rewrite callback_exchange by done.
  rewrite (exchange_transport_error _ _ _ _ _ _ Hh Hcl Hp).
  unfold exchange_failed, log, add_event, set_states, new_events.
  cbn [fst snd states files trace str_exn]. rewrite <- app_assoc, drop_app_length. done.
Qed.

(** X15: an [access_token] that is there but false ([null], the empty
    string, [0], [false], an empty list or object) is treated like a
    missing one: the exception page of line 514, and no file. *)
Theorem false_token_is_missing cfg e q w r d tok :
  reaches_exchange q w ->
  answers cfg e q r ->
  accepted r d ->
  dict_lookup d "access_token" = Some tok ->
  py_truthy tok = false ->
  fst (callback' cfg e q w) = exception_page (now_page e) no_token_message /\
  files (snd (callback' cfg e q w)) = files w.
Proof.
  intros Hr (h & Hh & Hcl & Hp) (Hs & Hj & Hok) Ht Hf.
  rewrite callback_exchange by done.
  rewrite (exchange_no_token _ _ _ _ _ _ _ _ Hh Hcl Hp _ Hj Hs Hok) by (by rewrite Ht).
  done.
Qed.

(** X16: an answer whose body is JSON but no object (a list, a string, a
    number, [true], [null]) ends in the exception page with the text of
    the [AttributeError], whatever its status; no file is written. *)
Theorem non_object_answer_page cfg e q w r v :
  reaches_exchange q w ->
  answers cfg e q r ->
  response_json r = inr v ->
  (forall d, v <> PDict d) ->
  fst (callback' cfg e q w)
    = exception_page (now_page e)
        ("'" +:+ py_type_name v +:+ "' object has no attribute 'get'") /\
  files (snd (callback' cfg e q w)) = files w.
Proof.
  intros Hr (h & Hh & Hcl & Hp) Hj Hv.
  rewrite callback_exchange by done.
  rewrite (exchange_not_object _ _ _ _ _ _ _ Hh Hcl Hp Hj Hv). done.
Qed.

(** X17: the page for a provider error carries the [error] parameter and
    the [error_description] parameter as they came, character for
    character (the word None for a description that is missing). *)
Theorem provider_error_is_echoed cfg e q w :
  truthy_opt (q_error q) = true ->
  let page := fst (callback' cfg e q w) in
  contains (str_opt (q_error q)) page = true /\
  contains (str_opt (q_error_description q)) page = true /\
  (q_error_description q = None -> contains "None" page = true).
Proof.
  intros He page. subst page. rewrite callback_provider_error by done. cbn [fst].
  set (err := str_opt (q_error q)). set (descr := str_opt (q_error_description q)).
  assert (Herr : contains err (provider_error_page (now_page e) err descr) = true).
  { unfold provider_error_page, get_base_html, base_template, provider_error_content.
    do 7 apply contains_app_r. apply contains_app_l.
    apply contains_app_r, contains_prefix. }
  assert (Hdescr : contains descr (provider_error_page (now_page e) err descr) = true).
  { unfold provider_error_page, get_base_html, base_template, provider_error_content.
    do 7 apply contains_app_r. apply contains_app_l.
    do 3 apply contains_app_r. apply contains_prefix. }
  repeat split; [done..|]. intros Hn. subst descr. rewrite Hn in Hdescr |- *. exact Hdescr.
Qed.

(** X18: the checksum can be computed exactly when neither credential
    holds a surrogate code point; with one that does, a callback that
    gets as far as the exchange sends no request and writes no file, and
    its page is the exception page with the encoder's text. *)
Theorem checksum_needs_encodable_credentials cfg :
  ((exists ex, app_id_hash cfg = inl ex) <->
   Exists (fun c => is_surrogate c = true) (APP_ID cfg ++ SECRET_KEY cfg)) /\
  (forall e q w ex,
      reaches_exchange q w -> app_id_hash cfg = inl ex ->
      fst (callback' cfg e q w) = exception_page (now_page e) (str_exn ex) /\
      files (snd (callback' cfg e q w)) = files w /\
      posts (new_events (trace w) (trace (snd (callback' cfg e q w)))) = []).
Proof.
  split.
  - assert (Hsep : Exists (fun c => is_surrogate c = true)
                      (APP_ID cfg ++ pystr_of_string ":" ++ SECRET_KEY cfg)
                    <-> Exists (fun c => is_surrogate c = true) (APP_ID cfg ++ SECRET_KEY cfg)).
    { rewrite !Exists_app. change (pystr_of_string ":") with [58%N].
      rewrite Exists_cons, Exists_nil. cbn. intuition discriminate. }
    rewrite <- Hsep, <- (utf8_encode_from_fails _ 0).
    unfold app_id_hash, utf8_encode. cbv zeta.
    destruct (utf8_encode_from _ _); split; intros [ex ?]; eauto; done.
  - intros e q w ex Hr Hh. rewrite callback_exchange by done.
    rewrite (exchange_encode_error _ _ _ _ _ Hh).
    unfold exchange_failed, log, add_event, set_states, new_events.
    cbn [fst snd states files trace]. rewrite drop_app_length. done.
Qed.
End CallbackMore.

(** A callback of the samples that carries both codes. *)
Lemma auth_code_is_preferred_witness :
  exists evs b,
    trace (snd (sample_callback sample_cfg (sample_env sample_ok None)
                  sample_query_both sample_world)) = trace sample_world ++ evs /\
    posts evs = [b] /\
    appIdHash b = sample_hash /\
    (truthy_opt (q_auth_code sample_query_both) = true ->
     Some (code b) = q_auth_code sample_query_both) /\
    (truthy_opt (q_auth_code sample_query_both) = false ->
     Some (code b) = q_code sample_query_both).
Proof.
  apply (auth_code_is_preferred py_type_name py_type_name sample_cfg
           (sample_env sample_ok None) sample_query_both sample_world sample_hash).
  - repeat split.
  - vm_compute. reflexivity.
  - reflexivity.
Defined.

(** A callback of the samples with a good state and no code. *)
Lemma missing_code_spends_state_witness :
  fst (sample_callback sample_cfg (sample_env sample_ok None)
         sample_query_no_code sample_world) = missing_code_page sample_now.
Proof.
  apply (missing_code_spends_state py_type_name py_type_name sample_cfg
           (sample_env sample_ok None) sample_query_no_code sample_world
           "abc-123:Xyz" "abc-123" (Pending "Xyz" sample_now));
    reflexivity.
Defined.

(** The HTTP client of the samples cannot connect. *)
Lemma transport_error_page_witness :
  fst (sample_callback sample_cfg (sample_env sample_refused None)
         (sample_query "abc-123:Xyz") sample_world)
    = exception_page sample_now "Connection refused".
Proof.
  apply (transport_error_page py_type_name py_type_name sample_cfg
           (sample_env sample_refused None) (sample_query "abc-123:Xyz") sample_world
           sample_hash "Connection refused").
  - repeat split.
  - vm_compute. reflexivity.
  - reflexivity.
  - reflexivity.
Defined.

(** The provider of the samples sends an empty token. *)
Lemma false_token_is_missing_witness :
  fst (sample_callback sample_cfg (sample_env (inr sample_empty_token) None)
         (sample_query "abc-123:Xyz") sample_world)
    = exception_page sample_now no_token_message.
Proof.
  apply (false_token_is_missing py_type_name py_type_name sample_cfg
           (sample_env (inr sample_empty_token) None) (sample_query "abc-123:Xyz")
           sample_world sample_empty_token
           [("s", PStr "ok"); ("access_token", PStr EmptyString)] (PStr EmptyString)).
  - repeat split.
  - exists sample_hash. split; [vm_compute; reflexivity | split; reflexivity].
  - repeat split.
  - reflexivity.
  - reflexivity.
Defined.

(** The provider of the samples answers with a JSON list. *)
Lemma non_object_answer_page_witness :
  fst (sample_callback sample_cfg (sample_env (inr sample_list_answer) None)
         (sample_query "abc-123:Xyz") sample_world)
    = exception_page sample_now "'list' object has no attribute 'get'".
Proof.
  apply (non_object_answer_page py_type_name py_type_name sample_cfg
           (sample_env (inr sample_list_answer) None) (sample_query "abc-123:Xyz")
           sample_world sample_list_answer (PList [])).
  - repeat split.
  - exists sample_hash. split; [vm_compute; reflexivity | split; reflexivity].
  - reflexivity.
  - intros d. discriminate.
Defined.

(** The refused login of the samples. *)
Lemma provider_error_is_echoed_witness :
  contains "access_denied"
    (fst (sample_callback sample_cfg (sample_env sample_ok None) sample_denied sample_world))
    = true.
Proof.
  apply (provider_error_is_echoed py_type_name py_type_name sample_cfg
           (sample_env sample_ok None) sample_denied sample_world).
  reflexivity.
Defined.

(** ** What the success page stands for *)

Section SuccessPage.
Variables (json_dumps str_other : pyval -> string).

Abbreviation callback' := (callback json_dumps str_other).
Abbreviation exchange' := (exchange json_dumps str_other).

(** The three ways the second [try] ends. *)
Lemma exchange_outcome cfg e c w :
  (exists ex, snd (exchange' cfg e c w) = inl ex) \/
  (exists m details,
     snd (exchange' cfg e c w) = inr (api_error_page (now_page e) m details)) \/
  (exists h r d t,
     app_id_hash cfg = inr h /\
     client_error e = None /\
     post e token_url token_headers (token_request h c) = inr r /\
     accepted r d /\
     dict_lookup d "access_token" = Some t /\ py_truthy t = true /\
     snd (exchange' cfg e c w)
       = inr (success_page (now_page e) (py_str str_other t) (json_dumps (PDict d))
                (token_path (now_stamp e))) /\
     files (fst (exchange' cfg e c w))
       = <[token_path (now_stamp e) := json_dumps (PDict d)]> (files w)).
Proof.
  run_exchange.
  destruct (app_id_hash cfg) as [ex|h]; cbn [fst snd]; [eauto|].
  destruct (client_error e) as [msg|] eqn:Hcl; cbn [fst snd]; [eauto|].
  destruct (post e _ _ _) as [msg|r] eqn:Hp; cbn [fst snd]; [eauto|].
  destruct (response_json r) as [msg|v] eqn:Hj; cbn [fst snd]; [eauto|].
  destruct (Z.eqb_spec (status_code r) 200) as [Hs|Hs].
  - destruct v as [| | | | |l|d]; cbn [fst snd]; eauto.
    destruct (py_eq_str _ _) eqn:Hok; cbn [fst snd]; [|eauto 6].
    destruct (dict_lookup d "access_token") as [t|] eqn:Ht; cbn [default from_option id];
      [|cbn; eauto].
    destruct (py_truthy t) eqn:Htrue; cbn [negb fst snd]; [|eauto].
    destruct (open_w e _) eqn:Hw; [destruct (kept_w e _); cbn [fst snd]; eauto|].
    cbn [fst snd]. right. right. exists h, r, d, t. repeat split; try done.
  - destruct v as [| | | | |l|d]; cbn [fst snd]; eauto 6.
Qed.

(** X25: the success page is never shown for nothing: when a callback
    returns it, the callback had passed the error, state and code checks,
    the provider had accepted the code with a JSON object that holds a
    true [access_token], and the token file of this second holds the JSON
    text the page shows. *)
Theorem success_page_means_saved cfg e q w now tok details path :
  fst (callback' cfg e q w) = success_page now tok details path ->
  reaches_exchange q w /\
  exists r d t,
    answers cfg e q r /\ accepted r d /\
    dict_lookup d "access_token" = Some t /\ py_truthy t = true /\
    fst (callback' cfg e q w)
      = success_page (now_page e) (py_str str_other t) (json_dumps (PDict d))
          (token_path (now_stamp e)) /\
    files (snd (callback' cfg e q w)) !! token_path (now_stamp e)
      = Some (json_dumps (PDict d)).
Proof.
  intros H.
  destruct (truthy_opt (q_error q)) eqn:H1.
  { exfalso. revert H. rewrite callback_provider_error by done. cbn [fst].
    unfold provider_error_page, success_page. titles_differ. }
  destruct (truthy_opt (q_state q)) eqn:H2; cycle 1.
  { exfalso. revert H. rewrite callback_missing_state by done. cbn [fst].
    unfold missing_state_page, success_page. titles_differ. }
  destruct (decide (fst (consume (states w) (str_opt (q_state q))) = Valid)) as [Hv|Hv]; cycle 1.
  { exfalso. revert H. rewrite callback_state_failure by done.
    destruct (fst (consume _ _)); cbn [fst];
      unfold state_format_page, invalid_state_page, success_page; titles_differ. }
  destruct (truthy_opt (actual_code q)) eqn:Hc; cycle 1.
  { exfalso. revert H. rewrite callback_missing_code by done. cbn [fst].
    unfold missing_code_page, success_page. titles_differ. }
  assert (Hr : reaches_exchange q w) by done.
  split; [done|]. revert H. rewrite callback_exchange by done.
  destruct (exchange_outcome cfg e (str_opt (actual_code q))
              (set_states (snd (consume (states w) (str_opt (q_state q)))) w))
    as [(ex & Hx) | [(m & dt & Hx) |
         (h & r & d & t & Hh & Hcl & Hp & Ha & Ht & Htrue & Hx & Hf)]];
    destruct (exchange _ _ _ _ _ _) as [w' o]; cbn [fst snd] in *; subst o.
  - intros H. exfalso. by apply exception_page_not_success in H.
  - intros H. exfalso. by apply api_error_page_not_success in H.
  - intros _. cbn [fst snd]. exists r, d, t. repeat split; try apply Ha; try done.
    + by exists h.
    + rewrite Hf. apply lookup_insert_eq.
Qed.

End SuccessPage.

(** The good run of the samples. *)
Lemma success_page_means_saved_witness :
  reaches_exchange (sample_query "abc-123:Xyz") sample_world.
Proof.
  apply (success_page_means_saved py_type_name py_type_name sample_cfg
           (sample_env sample_ok None) (sample_query "abc-123:Xyz") sample_world
           sample_now "TOK1" "dict" "data/tokens/token_20240102_030405.json").
  reflexivity.
Defined.

(** ** File names *)

Lemma strip_prefix_Some p : forall s r, strip_prefix p s = Some r <-> s = p +:+ r.
Proof.
  induction p as [|a p IH]; intros s r.
  - rewrite append_nil_l. cbn [strip_prefix]. split; congruence.
  - rewrite append_cons. destruct s as [|b s]; cbn [strip_prefix]; [done|].
    destruct (Ascii.eqb_spec a b) as [->|Hne].
    + rewrite IH. split; congruence.
    + split; [done | congruence].
Qed.

Lemma ends_with_iff suf s : ends_with suf s = true <-> exists pre, s = pre +:+ suf.
Proof.
  induction s as [|c s IH]; cbn [ends_with]; rewrite orb_true_iff, bool_decide_eq_true.
  - split.
    + intros [<-|?]; [|done]. by exists EmptyString.
    + intros ([|? ?] & H); [|by rewrite append_cons in H].
      rewrite append_nil_l in H. by left.
  - rewrite IH. split.
    + intros [<-|(pre & ->)]; [by exists EmptyString|].
      exists (String c pre). by rewrite append_cons.
    + intros ([|c' pre] & H).
      * rewrite append_nil_l in H. by left.
      * rewrite append_cons in H. injection H as -> ->. right. by exists pre.
Qed.

Lemma token_file_name_Some path name :
  token_file_name path = Some name <->
  path = "data/tokens/" +:+ name /\ has_slash name = false /\
  ends_with ".json" name = true.
Proof.
  unfold token_file_name.
  destruct (strip_prefix "data/tokens/" path) as [n|] eqn:E.
  - apply strip_prefix_Some in E as ->.
    destruct (has_slash n) eqn:Hs, (ends_with ".json" n) eqn:He; cbn [negb andb].
    all: split; [intros [= <-] | intros (Hp & Hs' & He')]; try done.
    all: apply strip_prefix_Some in Hp; rewrite (proj2 (strip_prefix_Some _ _ _) eq_refl) in Hp;
      injection Hp as <-; congruence.
  - split; [done|]. intros (Hp & _). apply strip_prefix_Some in Hp. congruence.
Qed.

Lemma elem_of_token_files (fs : gmap string string) name content :
  (name, content) ∈ token_files fs <->
  fs !! ("data/tokens/" +:+ name) = Some content /\ has_slash name = false /\
  ends_with ".json" name = true.
Proof.
  unfold token_files. rewrite merge_sort_Permutation, list_elem_of_omap. split.
  - intros ([path c] & Hin & Hf). cbn [fst snd] in Hf.
    destruct (token_file_name path) as [n|] eqn:E; [|done]. injection Hf as -> ->.
    apply token_file_name_Some in E as (-> & Hs & He).
    by apply elem_of_map_to_list in Hin.
  - intros (Hl & Hs & He). exists ("data/tokens/" +:+ name, content). split.
    + by apply elem_of_map_to_list.
    + cbn [fst snd]. by rewrite (proj2 (token_file_name_Some _ name)).
Qed.

Lemma name_order_trans :
  Transitive (fun a b : string * string => String.le (fst b) (fst a)).
Proof. intros a b c Hab Hbc. by etrans. Qed.

Lemma name_order_total :
  Total (fun a b : string * string => String.le (fst b) (fst a)).
Proof. intros a b. destruct (total String.le (fst a) (fst b)); auto. Qed.

Lemma token_files_sorted (fs : gmap string string) :
  StronglySorted (fun a b => String.le (fst b) (fst a)) (token_files fs).
Proof.
  unfold token_files.
  apply (@StronglySorted_merge_sort _ _ _ name_order_trans name_order_total).
Qed.

(** No two listed files have the same name. *)
Lemma token_files_names_NoDup (fs : gmap string string) :
  NoDup (fst <$> token_files fs).
Proof.
  unfold token_files. rewrite merge_sort_Permutation.
  pose proof (NoDup_fst_map_to_list fs) as Hnd.
  induction (map_to_list fs) as [|[path c] l IH]; [constructor|].
  cbn [fmap list_fmap fst] in Hnd. apply NoDup_cons in Hnd as [Hp Hnd].
  cbn [omap list_omap fst snd].
  destruct (token_file_name path) as [name|] eqn:E; [|by apply IH].
  cbn [fmap list_fmap fst]. apply NoDup_cons. split; [|by apply IH].
  intros ([n c'] & Hn & ([path' c''] & Hin & Hf)%list_elem_of_omap)%list_elem_of_fmap.
  cbn [fst snd] in *. subst n.
  destruct (token_file_name path') as [name'|] eqn:E'; [|done]. injection Hf as -> ->.
  apply token_file_name_Some in E as (-> & _), E' as (-> & _).
  apply Hp, list_elem_of_fmap. by exists ("data/tokens/" +:+ name, c').
Qed.

Lemma rfind_dot_json s : rfind_dot (s +:+ ".json") = Some (String.length s).
Proof.
  induction s as [|c s IH]; [done|].
  rewrite append_cons. cbn [rfind_dot String.length]. by rewrite IH.
Qed.

Lemma substring_prefix s t : substring 0 (String.length s) (s +:+ t) = s.
Proof.
  induction s as [|c s IH]; [by destruct t|].
  rewrite append_cons. cbn [String.length substring]. by rewrite IH.
Qed.

Lemma path_stem_json s : s <> EmptyString -> path_stem (s +:+ ".json") = s.
Proof.
  intros Hs. unfold path_stem. rewrite rfind_dot_json, length_append.
  assert (Hl : (0 < String.length s)%nat) by (destruct s; [done | simpl; lia]).
  rewrite (proj2 (Nat.ltb_lt _ _)) by done.
  rewrite (proj2 (Nat.ltb_lt _ _)) by (simpl; lia).
  apply substring_prefix.
Qed.

Lemma split_on_cons sep s : exists a l, split_on sep s = a :: l.
Proof.
  induction s as [|c s (a & l & IH)]; cbn [split_on]; [eauto|].
  destruct (Ascii.eqb c sep); [eauto|]. rewrite IH. eauto.
Qed.

Lemma join_cons sep x a l : join sep (x :: a :: l) = x +:+ sep +:+ join sep (a :: l).
Proof. reflexivity. Qed.

Lemma join_split_on sep s : join (String sep EmptyString) (split_on sep s) = s.
Proof.
  induction s as [|c s IH]; [done|]. cbn [split_on].
  destruct (split_on_cons sep s) as (a & l & E). rewrite E in IH |- *.
  destruct (Ascii.eqb_spec c sep) as [->|_].
  - by rewrite join_cons, IH, append_nil_l, append_cons, append_nil_l.
  - destruct l as [|b l]; [cbn [join] in *; by rewrite IH|].
    rewrite join_cons in IH |- *. by rewrite append_cons, IH.
Qed.

Lemma created_time_token rest : created_time ("token_" +:+ rest) = rest.
Proof.
  unfold created_time.
  assert (E : split_on "_" ("token_" +:+ rest) = "token"%string :: split_on "_" rest).
  { rewrite !append_cons, append_nil_l. cbn [split_on].
    destruct (split_on_cons "_" rest) as (a & l & ->). reflexivity. }
  rewrite E. cbn [tail].
  destruct (split_on_cons "_" rest) as (a & l & E'). rewrite E', <- E'.
  apply join_split_on.
Qed.

Lemma has_slash_app a b : has_slash (a +:+ b) = has_slash a || has_slash b.
Proof.
  induction a as [|c a IH]; [by rewrite append_nil_l|].
  rewrite append_cons. cbn [has_slash]. by rewrite IH, orb_assoc.
Qed.

Lemma has_slash_uint d : has_slash (NilEmpty.string_of_uint d) = false.
Proof. induction d; cbn [NilEmpty.string_of_uint has_slash]; by rewrite ?IHd. Qed.

Lemma has_slash_str_int z : has_slash (str_int z) = false.
Proof.
  unfold str_int, NilZero.string_of_int, NilZero.string_of_uint.
  destruct (Z.to_int z) as [d|d]; cbn [has_slash Ascii.eqb Bool.eqb orb];
    destruct d; try done; apply has_slash_uint.
Qed.

Lemma has_slash_zfill k z : has_slash (zfill k (str_int z)) = false.
Proof.
  unfold zfill. rewrite has_slash_app, has_slash_str_int, orb_false_r.
  induction (k - _)%nat as [|n IH]; [done|]. exact IH.
Qed.

Lemma has_slash_strftime_stamp now : has_slash (strftime_stamp now) = false.
Proof.
  unfold strftime_stamp.
  rewrite !has_slash_app, !has_slash_zfill, has_slash_str_int. reflexivity.
Qed.

(** ** The token pages *)

Lemma contains_refl t : contains t t = true.
Proof.
  assert (H : is_prefix t t = true)
    by (induction t as [|c t IH]; [done|]; cbn [is_prefix]; by rewrite Ascii.eqb_refl).
  destruct t; cbn [contains]; by rewrite H.
Qed.

Lemma get_base_html_shows t now title content err succ :
  contains t content = true ->
  contains t (get_base_html now title content err succ) = true.
Proof.
  intros H. unfold get_base_html, base_template.
  do 7 apply contains_app_r. by apply contains_app_l.
Qed.

Section TokenPagesMore.
Variable json_loads : string -> string + pyval.
Variables (json_dumps str_other : pyval -> string).

Abbreviation token_card' := (token_card json_loads str_other).
Abbreviation token_cards' := (token_cards json_loads str_other).
Abbreviation list_tokens' := (list_tokens json_loads str_other).
Abbreviation view_token' := (view_token json_loads json_dumps str_other).

Lemma token_cards_spec l : forall w,
  fst (token_cards' l w) =
    foldr (fun f items => fst (token_card' (fst f) (snd f)) +:+ items) EmptyString l /\
  states (snd (token_cards' l w)) = states w /\
  files (snd (token_cards' l w)) = files w /\
  trace (snd (token_cards' l w)) =
    trace w ++ omap (fun f => (fun e => Log "ERROR" ("Error reading token file " +:+
                                 "data/tokens/" +:+ fst f +:+ ": " +:+ e))
                              <$> snd (token_card' (fst f) (snd f))) l.
Proof.
  induction l as [|[name content] l IH]; intros w.
  - cbn. by rewrite app_nil_r.
  - cbn [token_cards foldr fst snd].
    change (omap ?f ((name, content) :: l))
      with (from_option (fun y => y :: omap f l) (omap f l) (f (name, content))).
    cbn beta. cbn [fst snd].
    destruct (token_card' name content) as [card err]. cbn [fst snd].
    set (w1 := match err with Some e => _ | None => w end).
    destruct (IH w1) as (H1 & H2 & H3 & H4).
    destruct (token_cards' l w1) as [items w2]. cbn [fst snd] in *.
    rewrite H1, H2, H3, H4. unfold w1.
    destruct err as [e|];
      cbn [fmap option_fmap option_map from_option log add_event states files trace];
      rewrite <- ?app_assoc; done.
Qed.

(** X19: the list page shows the files of [data/tokens] whose name ends in
    [.json], each once with its own card, the names in descending order
    (so the newest time stamp first) and no name twice; with no such file
    it is the No-Tokens page. *)
Theorem list_page_is_sorted_cards now w :
  let l := token_files (files w) in
  let page := fst (list_tokens' now w) in
  (forall name content,
     (name, content) ∈ l <->
     files w !! ("data/tokens/" +:+ name) = Some content /\ has_slash name = false /\
     ends_with ".json" name = true) /\
  StronglySorted (fun a b => String.le (fst b) (fst a)) l /\
  NoDup (fst <$> l) /\
  (l = [] -> page = get_base_html now "No Tokens" no_tokens_content None None) /\
  (l <> [] ->
   page = get_base_html now "Saved Tokens"
            (token_list_content
               (foldr (fun f items => fst (token_card' (fst f) (snd f)) +:+ items)
                  EmptyString l))
            None None).
Proof.
  cbv zeta. split; [intros; apply elem_of_token_files|].
  split; [apply token_files_sorted|].
  split; [apply token_files_names_NoDup|].
  unfold list_tokens. destruct (token_files (files w)) as [|f l] eqn:E; [done|].
  split; [done|]. intros _.
  destruct (token_cards_spec (f :: l) w) as (H1 & _).
  destruct (token_cards' (f :: l) w) as [items w']. cbn [fst] in *. by rewrite H1.
Qed.

Lemma token_card_shows_name name content :
  contains name (fst (token_card' name content)) = true.
Proof.
  assert (He : forall e, contains name (token_error_item name e) = true).
  { intros e. unfold token_error_item. apply contains_app_r, contains_prefix. }
  unfold token_card.
  destruct (json_loads content) as [e|token_data]; cbn [fst]; [apply He|].
  destruct (py_get _ _ _) as [ex|access_token]; cbn [fst]; [apply He|].
  destruct (py_slice_20 _) as [e|shown]; cbn [fst]; [apply He|].
  unfold token_item. apply contains_app_r, contains_prefix.
Qed.

Lemma contains_cards (t : string) (f : string * string) l :
  f ∈ l -> contains t (fst (token_card' (fst f) (snd f))) = true ->
  contains t (foldr (fun f items => fst (token_card' (fst f) (snd f)) +:+ items)
                EmptyString l) = true.
Proof.
  intros Hin Hc. induction l as [|g l IH]; [by apply elem_of_nil in Hin|].
  cbn [foldr]. apply elem_of_cons in Hin as [->|Hin].
  - by apply contains_app_l.
  - by apply contains_app_r, IH.
Qed.

(** X20: a file that cannot be read does not hide the others: every file of
    [data/tokens] whose name ends in [.json] has its card on the list
    page, with its name in it, whatever the other files hold. *)
Theorem every_token_file_has_a_card now w name content :
  files w !! ("data/tokens/" +:+ name) = Some content ->
  has_slash name = false ->
  ends_with ".json" name = true ->
  let page := fst (list_tokens' now w) in
  contains (fst (token_card' name content)) page = true /\
  contains name page = true.
Proof.
  intros Hl Hs He page. subst page.
  assert (Hin : (name, content) ∈ token_files (files w)) by (by apply elem_of_token_files).
  assert (H : forall t, contains t (fst (token_card' name content)) = true ->
                        contains t (fst (list_tokens' now w)) = true).
  { intros t Ht. unfold list_tokens.
    destruct (token_files (files w)) as [|f l] eqn:E; [by apply elem_of_nil in Hin|].
    destruct (token_cards_spec (f :: l) w) as (H1 & _).
    destruct (token_cards' (f :: l) w) as [items w']. cbn [fst] in *. rewrite H1.
    apply get_base_html_shows. unfold token_list_content.
    apply contains_app_r, contains_app_l.
    by apply (contains_cards t (name, content)). }
  split; apply H; [apply contains_refl | apply token_card_shows_name].
Qed.

(** X21: the two token pages only read: they leave the pending states and
    the files as they are, and add nothing to the trace but error lines
    of the log, so they send no request and write no file. *)
Theorem token_pages_are_read_only now token_id w :
  let w1 := snd (list_tokens json_loads str_other now w) in
  let w2 := snd (view_token json_loads json_dumps str_other now token_id w) in
  states w1 = states w /\ files w1 = files w /\
  states w2 = states w /\ files w2 = files w /\
  (exists evs, trace w1 = trace w ++ evs /\
     Forall (fun ev => exists m, ev = Log "ERROR" m) evs) /\
  (exists evs, trace w2 = trace w ++ evs /\
     Forall (fun ev => exists m, ev = Log "ERROR" m) evs).
Proof.
  cbv zeta.
  assert (H1 : states (snd (list_tokens' now w)) = states w /\
               files (snd (list_tokens' now w)) = files w /\
               exists evs, trace (snd (list_tokens' now w)) = trace w ++ evs /\
                 Forall (fun ev => exists m, ev = Log "ERROR" m) evs).
  { unfold list_tokens. destruct (token_files (files w)) as [|f l].
    - cbn [snd]. repeat split. exists []. by rewrite app_nil_r.
    - destruct (token_cards_spec (f :: l) w) as (_ & Hs & Hf & Ht).
      destruct (token_cards' (f :: l) w) as [items w']. cbn [snd] in *.
      repeat split; [done|done|]. eexists. split; [exact Ht|].
      apply Forall_forall. intros ev ([n c] & _ & Hev)%list_elem_of_omap.
      destruct (snd (token_card' _ _)); simplify_eq/=. eauto. }
  assert (H2 : states (snd (view_token' now token_id w)) = states w /\
               files (snd (view_token' now token_id w)) = files w /\
               exists evs, trace (snd (view_token' now token_id w)) = trace w ++ evs /\
                 Forall (fun ev => exists m, ev = Log "ERROR" m) evs).
  { assert (Hnone : exists evs : list event, trace w = trace w ++ evs /\
                      Forall (fun ev => exists m, ev = Log "ERROR" m) evs)
      by (exists []; by rewrite app_nil_r).
    assert (Hfail : forall e, exists evs,
              trace (snd (view_failed now e w)) = trace w ++ evs /\
              Forall (fun ev => exists m, ev = Log "ERROR" m) evs).
    { intros e. eexists. split; [reflexivity|]. repeat constructor. eauto. }
    unfold view_token. destruct (files w !! _) as [content|]; [|done].
    destruct (json_loads content) as [e|token_data]; [by split; [|split; [|apply Hfail]]|].
    destruct (py_get _ _ _) as [ex|tok]; [by split; [|split; [|apply Hfail]]|]. done. }
  destruct H1 as (? & ? & ?), H2 as (? & ? & ?). done.
Qed.

(** A file that is there is never answered with Token Not Found. *)
Lemma view_token_found now token_id w content :
  files w !! token_file_path token_id = Some content ->
  fst (view_token' now token_id w)
    <> get_base_html now "Token Not Found" token_not_found_content
         (Some "Token not found") None.
Proof.
  intros Hl. unfold view_token. rewrite Hl.
  destruct (json_loads content) as [e|token_data]; [unfold view_failed; titles_differ|].
  destruct (py_get _ _ _) as [ex|tok]; [unfold view_failed; titles_differ|].
  cbn [fst]. titles_differ.
Qed.


(** X23: the View-Details link of a listed file leads to that file:
    [view_token] of the stem the list page puts in the link reads the
    very file the card was made from. The one exception is a file named
    [.json], whose link asks for [.json.json]. *)
Theorem details_link_opens_the_file now w name content :
  (name, content) ∈ token_files (files w) ->
  (name <> ".json" ->
     files w !! token_file_path (path_stem name) = Some content /\
     fst (view_token' now (path_stem name) w)
       <> get_base_html now "Token Not Found" token_not_found_content
            (Some "Token not found") None) /\
  (name = ".json" -> token_file_path (path_stem name) = "data/tokens/.json.json").
Proof.
  intros (Hl & Hs & (pre & ->)%ends_with_iff)%elem_of_token_files.
  split; [|by intros ->].
  intros Hne. assert (Hp : pre <> EmptyString) by (intros ->; done).
  assert (E : files w !! token_file_path (path_stem (pre +:+ ".json")) = Some content)
    by (by rewrite path_stem_json).
  split; [done|]. by apply (view_token_found _ _ _ content).
Qed.

(** X24: a token that [callback] saved can be looked up again: with a JSON
    reader that reads back what was written, [view_token] of
    [token_<stamp>] shows the same access token and the same JSON text as
    were saved, the file is among those the list page shows, and its card
    gives the time stamp as the creation time and the first 20 characters
    of a token that is a text. *)
Theorem saved_token_can_be_viewed cfg e q w r d tok now :
  reaches_exchange q w ->
  answers cfg e q r ->
  accepted r d ->
  dict_lookup d "access_token" = Some tok ->
  py_truthy tok = true ->
  open_w e (token_path (now_stamp e)) = None ->
  json_loads (json_dumps (PDict d)) = inr (PDict d) ->
  let w' := snd (callback json_dumps str_other cfg e q w) in
  let token_id := "token_" +:+ strftime_stamp (now_stamp e) in
  let name := token_id +:+ ".json" in
  view_token' now token_id w'
    = (get_base_html now ("Token: " +:+ token_id)
         (token_detail_content token_id (py_str str_other tok) (json_dumps (PDict d)))
         None None, w') /\
  (name, json_dumps (PDict d)) ∈ token_files (files w') /\
  (forall s, tok = PStr s ->
     token_card' name (json_dumps (PDict d))
       = (token_item name (strftime_stamp (now_stamp e)) token_id (take_chars 20 s), None)).
Proof.
  intros Hr (h & Hh & Hcl & Hp) (Hs & Hj & Hok) Ht Htrue Hw Hload w' token_id name.
  assert (Hf : files w' = <[token_path (now_stamp e) := json_dumps (PDict d)]> (files w)).
  { unfold w'. rewrite callback_exchange by done.
    rewrite (exchange_success _ _ _ _ _ _ _ _ Hh Hcl Hp _ Hj Hs Hok) by (by rewrite ?Ht).
    done. }
  assert (Hpath : token_path (now_stamp e) = "data/tokens/" +:+ name).
  { unfold token_path, name, token_id. by rewrite !append_assoc. }
  assert (Hlook : files w' !! ("data/tokens/" +:+ name) = Some (json_dumps (PDict d)))
    by (rewrite Hf, Hpath; apply lookup_insert_eq).
  clearbody w'. split; [|split].
  - unfold view_token, token_file_path. fold name. rewrite Hlook, Hload.
    cbn [py_get]. by rewrite Ht.
  - apply elem_of_token_files. split; [done|]. split.
    + unfold name, token_id. rewrite !has_slash_app, has_slash_strftime_stamp. done.
    + apply ends_with_iff. by exists token_id.
  - intros s ->. unfold token_card. rewrite Hload. cbn [py_get]. rewrite Ht.
    cbn [default from_option id py_slice_20 py_str].
    unfold name. rewrite path_stem_json by done.
    unfold token_id. by rewrite created_time_token.
Qed.

End TokenPagesMore.

(** The token directory of the samples. *)
Lemma every_token_file_has_a_card_witness :
  contains "token_20240102_030405.json"
    (fst (list_tokens sample_json_loads py_type_name sample_now sample_token_world)) = true.
Proof.
  apply (every_token_file_has_a_card sample_json_loads py_type_name sample_now
           sample_token_world "token_20240102_030405.json" "dict").
  - vm_compute. reflexivity.
  - reflexivity.
  - reflexivity.
Defined.

(** The link of the one file of the samples. *)
Lemma details_link_opens_the_file_witness :
  files sample_token_world !! token_file_path (path_stem "token_20240102_030405.json")
    = Some "dict"%string.
Proof.
  apply (details_link_opens_the_file sample_json_loads py_type_name py_type_name sample_now
           sample_token_world "token_20240102_030405.json" "dict").
  - vm_compute. apply list_elem_of_here.
  - discriminate.
Defined.

(** The good run of the samples, and its file on the list. *)
Lemma saved_token_can_be_viewed_witness :
  ("token_20240102_030405.json"%string, "dict"%string)
    ∈ token_files (files (snd (sample_callback sample_cfg (sample_env sample_ok None)
                                 (sample_query "abc-123:Xyz") sample_world))).
Proof.
  apply (saved_token_can_be_viewed sample_json_loads py_type_name py_type_name sample_cfg
           (sample_env sample_ok None) (sample_query "abc-123:Xyz") sample_world
           (Response 200 (inr sample_body))
           [("s", PStr "ok"); ("access_token", PStr "TOK1")] (PStr "TOK1") sample_now).
  - repeat split.
  - exists sample_hash. split; [vm_compute; reflexivity | split; reflexivity].
  - repeat split.
  - reflexivity.
  - reflexivity.
  - reflexivity.
  - reflexivity.
Defined.
